(** * Document Insights Generator: extraction, prompt assembly, error mapping

    A shallow embedding of the helper functions and of the two UI handlers of
    the Streamlit script [4dc66906.py]:

      - [extract_text_from_pdf], [extract_text_from_docx],
        [extract_text_from_txt] and the dispatcher [extract_text];
      - [generate_insights] (truncation, prompt template, error mapping);
      - the "Extract Text" handler and the two exported reports.

    Python [str] values are sequences of Unicode code points, [bytes] values
    are sequences of bytes.  The external collaborators (PyPDF2, python-docx,
    the OpenAI client) are variables of a section; every call to one of them,
    every entry into one of the script's extractors and every message shown
    by the UI is recorded in a log, and an exception raised by a collaborator
    travels through the script's own [try]/[except] blocks. *)

From Stdlib Require Import List NArith ZArith PeanoNat Lia Zify Bool String Ascii.
From Stdlib.Strings Require Import Byte.
From Stdlib Require Import DecimalString.
Import ListNotations.

Set Implicit Arguments.

(** ** Python strings *)

Module Str.

(** A character is a Unicode code point. *)
Definition char := N.
Definition str := list char.
Definition bytes := list byte.

(** An ASCII literal of the script. *)
Definition lit (s : string) : str :=
  List.map N_of_ascii (list_ascii_of_string s).

Definition NL : str := [10%N].

Definition len (s : str) : nat := List.length s.

Fixpoint eqb (s t : str) : bool :=
  match s, t with
  | [], [] => true
  | c :: s', d :: t' => N.eqb c d && eqb s' t'
  | _, _ => false
  end.

(** [s.startswith(prefix)] *)
Fixpoint startswith (s prefix : str) {struct prefix} : bool :=
  match prefix, s with
  | [], _ => true
  | _ :: _, [] => false
  | p :: prefix', c :: s' => N.eqb c p && startswith s' prefix'
  end.

(** [s.endswith(suffix)] *)
Definition endswith (s suffix : str) : bool :=
  startswith (List.rev s) (List.rev suffix).

(** [needle in s] *)
Fixpoint contains (s needle : str) : bool :=
  startswith s needle ||
  match s with
  | [] => false
  | _ :: s' => contains s' needle
  end.

(** [s[:n]] for a non-negative [n]. *)
Definition slice_to (s : str) (n : nat) : str := List.firstn n s.

(** [sep.join(parts)] *)
Fixpoint join (sep : str) (parts : list str) : str :=
  match parts with
  | [] => []
  | [p] => p
  | p :: rest => p ++ sep ++ join sep rest
  end.

(** [str.isspace] on one character: the code points CPython's
    [_PyUnicode_IsWhitespace] accepts. *)
Definition isspace (c : char) : bool :=
  ((9 <=? c) && (c <=? 13) || (28 <=? c) && (c <=? 32)
   || (c =? 133) || (c =? 160) || (c =? 5760)
   || (8192 <=? c) && (c <=? 8202)
   || (c =? 8232) || (c =? 8233) || (c =? 8239) || (c =? 8287)
   || (c =? 12288))%N.

Fixpoint lstrip (s : str) : str :=
  match s with
  | [] => []
  | c :: s' => if isspace c then lstrip s' else s
  end.

Definition rstrip (s : str) : str := List.rev (lstrip (List.rev s)).

(** [s.strip()] *)
Definition strip (s : str) : str := rstrip (lstrip s).

(** [str(n)] for a non-negative integer. *)
Definition of_nat (n : nat) : str :=
  lit (NilEmpty.string_of_uint (Nat.to_uint n)).

(** The mathematical reading of [needle in s]. *)
Definition occurs (needle s : str) : Prop :=
  exists pre post, s = pre ++ needle ++ post.

End Str.

Import Str.

Arguments lit : simpl never.

Declare Scope str_scope.
Delimit Scope str_scope with str.
Bind Scope str_scope with str.
Notation "s +++ t" := (@List.app char s t)
  (at level 60, right associativity) : str_scope.
Local Open Scope str_scope.

(** ** Exceptions and outcomes *)

(** The classes of the [Exception] hierarchy the script can meet. *)
Inductive exception_class : Type :=
  | AuthenticationError
  | RateLimitError
  | InvalidRequestError
  | IndexError
  | NameError
  | TypeError
  | AttributeError
  | UnicodeDecodeError
  | OtherError (name : str).

(** An exception object of the [Exception] hierarchy: its class and
    [str(e)].  The three OpenAI classes are siblings under
    [openai.error.OpenAIError]. *)
Record exception : Type := Exc {
  exc_class : exception_class;
  exc_str : str
}.

Inductive result (A : Type) : Type :=
  | Return (a : A)
  | Raise (e : exception).
Arguments Return {A} a.
Arguments Raise {A} e.

(** ** UTF-8 decoding

    [bytes.decode('utf-8', errors=...)] as CPython's decoder performs it: a
    sequence is read at its lead byte; an invalid start byte, or a lead byte
    followed by a byte that cannot continue it (overlong forms, surrogates
    and code points past U+10FFFF are told at the second byte), is an error
    that covers the bytes read so far (one, two or three of them); input
    that ends inside a sequence is an error that covers the rest of the
    input.  With [errors='strict'] an error raises [UnicodeDecodeError];
    with [errors='ignore'] the bytes it covers are skipped and decoding goes
    on after them. *)

Inductive errors_mode : Type := strict | ignore.

Module Utf8.
Local Open Scope N_scope.

Definition is_continuation (b : N) : bool := (0x80 <=? b) && (b <=? 0xBF).

(** An error at the current position: raise, or go on with [k], the decoding
    of what follows the bytes the error covers. *)
Definition error (errors : errors_mode) (reason : string) (k : result str)
  : result str :=
  match errors with
  | strict => Raise (Exc UnicodeDecodeError (lit reason))
  | ignore => k
  end.

Definition put (c : char) (k : result str) : result str :=
  match k with
  | Return s => Return (c :: s)
  | Raise e => Raise e
  end.

(** One turn of the decoder's loop at lead byte [b1], with [s1] after it;
    [rest_of s] is the decoding of what is left once the turn has consumed or
    skipped its bytes. *)
Definition decode_at (rest_of : bytes -> result str) (errors : errors_mode)
    (b1 : byte) (s1 : bytes) : result str :=
  let ch := Byte.to_N b1 in
  if ch <? 0x80 then put ch (rest_of s1)
  else if ch <? 0xC2 then
    error errors "invalid start byte" (rest_of s1)
  else if ch <? 0xE0 then
    match s1 with
    | [] => error errors "unexpected end of data" (Return [])
    | b2 :: s2 =>
      let ch2 := Byte.to_N b2 in
      if negb (is_continuation ch2) then
        error errors "invalid continuation byte" (rest_of s1)
      else put ((ch * 64 + ch2) - (0xC0 * 64 + 0x80)) (rest_of s2)
    end
  else if ch <? 0xF0 then
    match s1 with
    | [] => error errors "unexpected end of data" (Return [])
    | b2 :: s2 =>
      let ch2 := Byte.to_N b2 in
      if negb (is_continuation ch2)
         || (if ch2 <? 0xA0 then ch =? 0xE0 else ch =? 0xED) then
        error errors "invalid continuation byte" (rest_of s1)
      else
        match s2 with
        | [] => error errors "unexpected end of data" (Return [])
        | b3 :: s3 =>
          let ch3 := Byte.to_N b3 in
          if negb (is_continuation ch3) then
            error errors "invalid continuation byte" (rest_of s2)
          else
            put ((ch * 4096 + ch2 * 64 + ch3)
                 - (0xE0 * 4096 + 0x80 * 64 + 0x80))
                (rest_of s3)
        end
    end
  else if ch <? 0xF5 then
    match s1 with
    | [] => error errors "unexpected end of data" (Return [])
    | b2 :: s2 =>
      let ch2 := Byte.to_N b2 in
      if negb (is_continuation ch2)
         || (if ch2 <? 0x90 then ch =? 0xF0 else ch =? 0xF4) then
        error errors "invalid continuation byte" (rest_of s1)
      else
        match s2 with
        | [] => error errors "unexpected end of data" (Return [])
        | b3 :: s3 =>
          let ch3 := Byte.to_N b3 in
          if negb (is_continuation ch3) then
            error errors "invalid continuation byte" (rest_of s2)
          else
            match s3 with
            | [] => error errors "unexpected end of data" (Return [])
            | b4 :: s4 =>
              let ch4 := Byte.to_N b4 in
              if negb (is_continuation ch4) then
                error errors "invalid continuation byte" (rest_of s3)
              else
                put ((ch * 262144 + ch2 * 4096 + ch3 * 64 + ch4)
                     - (0xF0 * 262144 + 0x80 * 4096 + 0x80 * 64 + 0x80))
                    (rest_of s4)
            end
        end
    end
  else error errors "invalid start byte" (rest_of s1).

Fixpoint decode (errors : errors_mode) (s : bytes) : result str :=
  match s with
  | [] => Return []
  | b1 :: s1 => decode_at (decode errors) errors b1 s1
  end.

End Utf8.

(** [subseq kept s]: [kept] is [s] with some of its elements left out, the
    others in their order. *)
Inductive subseq {A : Type} : list A -> list A -> Prop :=
  | subseq_nil : subseq [] []
  | subseq_keep (x : A) (kept s : list A) : subseq kept s -> subseq (x :: kept) (x :: s)
  | subseq_drop (x : A) (kept s : list A) : subseq kept s -> subseq kept (x :: s).

(** ** Effects: [try]/[except] and the log of calls *)

(** What an [except] clause names. *)
Inductive except_clause : Type :=
  | Class (c : exception_class)
  | Exception.

Definition class_eqb (c d : exception_class) : bool :=
  match c, d with
  | AuthenticationError, AuthenticationError => true
  | RateLimitError, RateLimitError => true
  | InvalidRequestError, InvalidRequestError => true
  | IndexError, IndexError => true
  | NameError, NameError => true
  | TypeError, TypeError => true
  | AttributeError, AttributeError => true
  | UnicodeDecodeError, UnicodeDecodeError => true
  | OtherError n, OtherError m => Str.eqb n m
  | _, _ => false
  end.

Definition isinstance (e : exception) (c : except_clause) : bool :=
  match c with
  | Exception => true
  | Class c => class_eqb (exc_class e) c
  end.

(** The script's three extractors. *)
Inductive extractor : Type := from_pdf | from_docx | from_txt.

(** The remote completion service's request and response. *)
Record Message : Type := { role : str; content : str }.

(** A message of a response: the service may leave its content null
    ([None]). *)
Record ResponseMessage : Type := {
  message_role : str;
  message_content : option str
}.

Record Choice : Type := { message : ResponseMessage }.

Record Response : Type := { choices : list Choice }.

(** [st.session_state]: the three fields the script initialises to [None]
    (lines 215-220) and [question], which exists once insights were
    generated (line 290). *)
Module session_state.

Record t : Type := {
  document_text : option str;
  insights : option str;
  filename : option str;
  question : option str
}.

Definition initial : t :=
  {| document_text := None; insights := None; filename := None; question := None |}.

Definition set_document_text (ss : t) (v : option str) : t :=
  {| document_text := v; insights := insights ss;
     filename := filename ss; question := question ss |}.

End session_state.

Section Script.

(** Python's [float], of which the script only passes values on. *)
Variable float : Type.

Record Request : Type := {
  model : str;
  messages : list Message;
  max_tokens : nat;
  temperature : float
}.

(** What the log records: an entry into one of the extractors, a call of a
    library parser, a call of the remote service (with the key set in
    [openai.api_key]), and the messages the UI shows. *)
Inductive event : Type :=
  | Enter (f : extractor)
  | Call_PdfReader (file_bytes : bytes)
  | Call_DocxDocument (file_bytes : bytes)
  | Call_ChatCompletion_create (api_key : str) (req : Request)
  | st_success (body : str)
  | st_error (body : str)
  | st_text (body : str).

(** A computation: from the log so far to an outcome and the log after. *)
Definition M (A : Type) : Type := list event -> result A * list event.

Definition ret {A : Type} (a : A) : M A := fun log => (Return a, log).

Definition raise {A : Type} (e : exception) : M A := fun log => (Raise e, log).

Definition bind {A B : Type} (m : M A) (k : A -> M B) : M B :=
  fun log =>
    match m log with
    | (Return a, log') => k a log'
    | (Raise e, log') => (Raise e, log')
    end.

(** An outcome computed without touching the log. *)
Definition lift {A : Type} (r : result A) : M A := fun log => (r, log).

Definition emit (ev : event) : M unit := fun log => (Return tt, log ++ [ev]).

(** A call of an external collaborator: logged, then its outcome. *)
Definition call {A : Type} (ev : event) (outcome : result A) : M A :=
  fun log => (outcome, log ++ [ev]).

Definition handler (A : Type) : Type := (except_clause * (exception -> M A))%type.

(** The [except] clauses are tried in order; with none matching the
    exception goes on to the caller. *)
Fixpoint handle {A : Type} (handlers : list (handler A)) (e : exception) : M A :=
  match handlers with
  | [] => raise e
  | (c, h) :: rest => if isinstance e c then h e else handle rest e
  end.

Definition try_except {A : Type} (body : M A) (handlers : list (handler A)) : M A :=
  fun log =>
    match body log with
    | (Return a, log') => (Return a, log')
    | (Raise e, log') => handle handlers e log'
    end.

(** [for x in xs: acc = body(acc, x)] *)
Fixpoint for_each {A S : Type} (xs : list A) (body : S -> A -> M S) (acc : S) : M S :=
  match xs with
  | [] => ret acc
  | x :: xs' => bind (body acc x) (for_each xs' body)
  end.

(** A run from an empty log. *)
Definition run {A : Type} (m : M A) : result A * list event := m [].

Notation "x <- m ;; k" := (bind m (fun x => k))
  (at level 61, m at next level, right associativity).
Notation "m ;; k" := (bind m (fun _ => k))
  (at level 61, right associativity).

(** ** The external collaborators *)

(** A page of a parsed PDF: what [page.extract_text()] does. *)
Record PdfPage : Type := { extract_text_of_page : result str }.

Record Pdf : Type := { pages : list PdfPage }.

Record Paragraph : Type := { text : str }.

Record Docx : Type := { paragraphs : list Paragraph }.

(** [from PyPDF2 import PdfReader]: [None] when the import fails. *)
Variable import_PdfReader : option (bytes -> result Pdf).

(** [from docx import Document as DocxDocument]: [None] when it fails. *)
Variable import_DocxDocument : option (bytes -> result Docx).

(** [openai.ChatCompletion.create], under the key in [openai.api_key]. *)
Variable ChatCompletion_create : str -> Request -> result Response.

Definition PDF_AVAILABLE : bool :=
  match import_PdfReader with Some _ => true | None => false end.

Definition DOCX_AVAILABLE : bool :=
  match import_DocxDocument with Some _ => true | None => false end.

(** The name [PdfReader]: unbound when the import failed. *)
Definition PdfReader (file_bytes : bytes) : M Pdf :=
  match import_PdfReader with
  | Some reader => call (Call_PdfReader file_bytes) (reader file_bytes)
  | None => raise (Exc NameError (lit "name 'PdfReader' is not defined"))
  end.

Definition DocxDocument (file_bytes : bytes) : M Docx :=
  match import_DocxDocument with
  | Some reader => call (Call_DocxDocument file_bytes) (reader file_bytes)
  | None => raise (Exc NameError (lit "name 'DocxDocument' is not defined"))
  end.

(** ** Helper functions (lines 124-212) *)

Definition extract_text_from_pdf (file_bytes : bytes) : M str :=
  emit (Enter from_pdf) ;;
  try_except
    (if negb PDF_AVAILABLE then
       ret (lit "PDF support not available. Please install PyPDF2.")
     else
       pdf_reader <- PdfReader file_bytes ;;
       text <- for_each (pages pdf_reader)
                 (fun text page =>
                    page_text <- lift (extract_text_of_page page) ;;
                    ret (text +++ page_text +++ NL))
                 [] ;;
       ret (strip text))
    [(Exception, fun e => ret (lit "Error extracting PDF: " +++ exc_str e))].

Definition extract_text_from_docx (file_bytes : bytes) : M str :=
  emit (Enter from_docx) ;;
  try_except
    (if negb DOCX_AVAILABLE then
       ret (lit "DOCX support not available. Please install python-docx.")
     else
       doc <- DocxDocument file_bytes ;;
       let text := join NL (List.map text (paragraphs doc)) in
       ret (strip text))
    [(Exception, fun e => ret (lit "Error extracting DOCX: " +++ exc_str e))].

Definition extract_text_from_txt (file_bytes : bytes) : M str :=
  emit (Enter from_txt) ;;
  try_except
    (decoded <- lift (Utf8.decode ignore file_bytes) ;;
     ret (strip decoded))
    [(Exception, fun e => ret (lit "Error extracting TXT: " +++ exc_str e))].

(** Streamlit's uploaded file: its name, its declared MIME type and what
    [read()] returns. *)
Record UploadedFile : Type := {
  name : str;
  type : str;
  read : bytes
}.

Definition unsupported_message : str :=
  lit "Unsupported file format. Please upload PDF, DOCX, or TXT files.".

Definition extract_text (uploaded_file : UploadedFile) : M str :=
  let file_bytes := read uploaded_file in
  let file_type := type uploaded_file in
  if Str.eqb file_type (lit "application/pdf")
     || endswith (name uploaded_file) (lit ".pdf") then
    extract_text_from_pdf file_bytes
  else if Str.eqb file_type
            (lit "application/vnd.openxmlformats-officedocument.wordprocessingml.document")
          || endswith (name uploaded_file) (lit ".docx") then
    extract_text_from_docx file_bytes
  else if Str.eqb file_type (lit "text/plain")
          || endswith (name uploaded_file) (lit ".txt") then
    extract_text_from_txt file_bytes
  else
    ret unsupported_message.

(** [l[i]] *)
Definition index {A : Type} (l : list A) (i : nat) : M A :=
  match List.nth_error l i with
  | Some a => ret a
  | None => raise (Exc IndexError (lit "list index out of range"))
  end.

Definition max_chars : nat := N.to_nat 12000.

Definition truncation_marker : str :=
  NL +++ NL +++ lit "[Document truncated for processing...]".

(** Lines 178-180: the text that goes into the prompt. *)
Definition truncate (document_text : str) : str :=
  if max_chars <? len document_text then
    slice_to document_text max_chars +++ truncation_marker
  else document_text.

(** The three fixed pieces of the prompt template (lines 183-190). *)
Definition prompt_head : str :=
  lit "You are a helpful AI assistant that analyzes documents and provides clear, detailed insights."
  +++ NL +++ NL
  +++ lit "Read the following document carefully and answer this question: ".

Definition prompt_middle : str :=
  NL +++ NL +++ lit "Document:" +++ NL.

Definition prompt_tail : str :=
  NL +++ NL
  +++ lit "Please provide a comprehensive answer based only on the information in the document. If the document doesn't contain enough information to answer the question, say so clearly.".

(** Lines 178-190: truncation, then the f-string. *)
Definition build_prompt (document_text question : str) : str :=
  let document_text := truncate document_text in
  prompt_head +++ question +++ prompt_middle +++ document_text +++ prompt_tail.

Definition system_content : str :=
  lit "You are a helpful assistant that provides clear, detailed document analysis.".

(** The code point of the cross mark that opens every failure message. *)
Definition cross_mark : str := [10060%N].

Definition invalid_api_key_message : str :=
  cross_mark +++ lit " Invalid API key. Please check your OpenAI API key and try again.".

Definition rate_limit_message : str :=
  cross_mark +++ lit " Rate limit exceeded. Please check your API quota or try again later.".

Definition invalid_request_message (e : exception) : str :=
  cross_mark +++ lit " Invalid request: " +++ exc_str e.

Definition generic_failure_message (e : exception) : str :=
  cross_mark +++ lit " Error generating insights: " +++ exc_str e.

Definition generate_insights
    (document_text question api_key model_name : str) (temp : float)
  : M (option str) :=
  try_except
    (let prompt := build_prompt document_text question in
     let req :=
       {| model := model_name;
          messages :=
            [ {| role := lit "system"; content := system_content |};
              {| role := lit "user"; content := prompt |} ];
          max_tokens := 1000;
          temperature := temp |} in
     response <- call (Call_ChatCompletion_create api_key req)
                      (ChatCompletion_create api_key req) ;;
     first_choice <- index (choices response) 0 ;;
     ret (message_content (message first_choice)))
    [ (Class AuthenticationError, fun _ => ret (Some invalid_api_key_message));
      (Class RateLimitError, fun _ => ret (Some rate_limit_message));
      (Class InvalidRequestError, fun e => ret (Some (invalid_request_message e)));
      (Exception, fun e => ret (Some (generic_failure_message e))) ].

(** ** The "Extract Text" button (lines 238-250) *)

Definition check_mark : str := [9989%N].

(** Line 242: what the UI takes for a successful extraction. *)
Definition is_success (document_text : str) : bool :=
  negb (len document_text =? 0)%nat
  && negb (startswith document_text (lit "Error"))
  && negb (startswith document_text (lit "Unsupported")).

Definition extract_button (ss : session_state.t) (uploaded_file : UploadedFile)
  : M session_state.t :=
  document_text <- extract_text uploaded_file ;;
  let ss := session_state.set_document_text ss (Some document_text) in
  if is_success document_text then
    emit (st_success (check_mark +++ lit " Text extracted successfully! ("
                      +++ Str.of_nat (len document_text) +++ lit " characters)")) ;;
    let preview_text := slice_to document_text 1000 in
    emit (st_text (preview_text +++
                   (if (1000 <? len document_text)%nat then lit "..." else []))) ;;
    ret ss
  else
    emit (st_error document_text) ;;
    ret ss.

End Script.

(** ** The exported reports (lines 305-354) *)

(** A session value inside an f-string. *)
Definition fmt (v : option str) : str :=
  match v with
  | Some s => s
  | None => lit "None"
  end.

(** ['='*80] *)
Definition rule : str := List.repeat 61%N 80.

(** The plain-text report; [now] is
    [datetime.now().strftime('%Y-%m-%d %H:%M:%S')]. *)
Definition result_text (ss : session_state.t) (now : str) : result str :=
  match session_state.question ss with
  | None => Raise (Exc AttributeError (lit "st.session_state has no attribute 'question'"))
  | Some question =>
    match session_state.document_text ss with
    | None => Raise (Exc TypeError (lit "'NoneType' object is not subscriptable"))
    | Some document_text =>
      Return
        (lit "Document: " +++ fmt (session_state.filename ss) +++ NL
         +++ lit "Question: " +++ question +++ NL
         +++ lit "Generated: " +++ now +++ NL
         +++ NL
         +++ rule +++ NL
         +++ NL
         +++ lit "INSIGHTS:" +++ NL
         +++ NL
         +++ fmt (session_state.insights ss) +++ NL
         +++ NL
         +++ rule +++ NL
         +++ NL
         +++ lit "Document Text (excerpt):" +++ NL
         +++ slice_to document_text 2000 +++ lit "..." +++ NL)
    end
  end.

(** The markdown report. *)
Definition markdown_text (ss : session_state.t) (now : str) : result str :=
  match session_state.question ss with
  | None => Raise (Exc AttributeError (lit "st.session_state has no attribute 'question'"))
  | Some question =>
    Return
      (lit "# Document Insights" +++ NL
       +++ NL
       +++ lit "**Document:** " +++ fmt (session_state.filename ss) +++ lit "  " +++ NL
       +++ lit "**Question:** " +++ question +++ lit "  " +++ NL
       +++ lit "**Generated:** " +++ now +++ NL
       +++ NL
       +++ lit "---" +++ NL
       +++ NL
       +++ lit "## Insights" +++ NL
       +++ NL
       +++ fmt (session_state.insights ss) +++ NL
       +++ NL
       +++ lit "---" +++ NL
       +++ NL
       +++ lit "*Generated by Document Insights Generator*" +++ NL)
  end.

(** * The vocabulary of the properties *)

(** What decoding in [ignore] mode returns is the strict decoding of the
    input with the skipped bytes left out. *)
Definition dropped_decoding (s : bytes) (decoded : str) : Prop :=
  exists kept, subseq kept s /\ Utf8.decode strict kept = Return decoded.

(** The byte of value [n], for [n] below 256. *)
Definition byte_of (n : N) : byte :=
  match Byte.of_N n with
  | Some b => b
  | None => x00
  end.

(** UTF-8 encoding, against which the decoder is checked:
    [chr(c).encode('utf-8')] for a code point that is not a surrogate. *)
Definition encode_char (c : char) : bytes :=
  (if c <? 0x80 then [byte_of c]
   else if c <? 0x800 then
     [byte_of (0xC0 + c / 64); byte_of (0x80 + c mod 64)]
   else if c <? 0x10000 then
     [byte_of (0xE0 + c / 4096); byte_of (0x80 + (c / 64) mod 64);
      byte_of (0x80 + c mod 64)]
   else
     [byte_of (0xF0 + c / 262144); byte_of (0x80 + (c / 4096) mod 64);
      byte_of (0x80 + (c / 64) mod 64); byte_of (0x80 + c mod 64)])%N.

Definition encode (s : str) : bytes := List.concat (List.map encode_char s).

(** The truncation marker after its two line breaks and its opening
    bracket. *)
Definition marker_text : str := lit "Document truncated for processing...]".

(** The code points UTF-8 encodes. *)
Definition scalar (c : char) : Prop :=
  (c < 0xD800 \/ 0xE000 <= c < 0x110000)%N.

(** [bytes.decode('utf-8', errors='ignore')], said without the decoder: where
    the input opens with the encoding of a character, that character is
    decoded; where it does not, its first byte is left out. *)
Inductive utf8_ignoring : bytes -> str -> Prop :=
  | ignoring_end : utf8_ignoring [] []
  | ignoring_char (c : char) (rest : bytes) (s : str) :
      scalar c -> utf8_ignoring rest s ->
      utf8_ignoring (encode_char c ++ rest) (c :: s)
  | ignoring_skip (b : byte) (rest : bytes) (s : str) :
      (forall c rest', scalar c -> b :: rest <> encode_char c ++ rest') ->
      utf8_ignoring rest s -> utf8_ignoring (b :: rest) s.

(** The criteria of the dispatcher's three branches. *)
Definition pdf_criteria (f : UploadedFile) : Prop :=
  type f = lit "application/pdf" \/ endswith (name f) (lit ".pdf") = true.

Definition docx_criteria (f : UploadedFile) : Prop :=
  type f = lit "application/vnd.openxmlformats-officedocument.wordprocessingml.document"
  \/ endswith (name f) (lit ".docx") = true.

Definition txt_criteria (f : UploadedFile) : Prop :=
  type f = lit "text/plain" \/ endswith (name f) (lit ".txt") = true.

Section Routing.

Variable float : Type.
Variable import_PdfReader : option (bytes -> result Pdf).
Variable import_DocxDocument : option (bytes -> result Docx).

Definition extractor_M (e : extractor) : bytes -> M float str :=
  match e with
  | from_pdf => extract_text_from_pdf import_PdfReader
  | from_docx => extract_text_from_docx import_DocxDocument
  | from_txt => extract_text_from_txt (float := float)
  end.

(** Where the dispatcher sends a file: [extract_text] is that extractor on
    the file's bytes, and in a run the extractor's entry comes first and no
    other extractor is entered. *)
Definition routed_to (e : extractor) (uploaded_file : UploadedFile) : Prop :=
  extract_text import_PdfReader import_DocxDocument uploaded_file
  = extractor_M e (read uploaded_file)
  /\ exists out calls,
       run (extract_text import_PdfReader import_DocxDocument uploaded_file)
       = (Return out, Enter float e :: calls)
       /\ forall e', ~ In (Enter float e') calls.

End Routing.

(** The two capability-unavailable messages (lines 128 and 142). *)
Definition pdf_unavailable_message : str :=
  lit "PDF support not available. Please install PyPDF2.".

Definition docx_unavailable_message : str :=
  lit "DOCX support not available. Please install python-docx.".

(** The banner [st.success] shows after an extraction (line 243). *)
Definition success_banner (document_text : str) : str :=
  check_mark ++ lit " Text extracted successfully! ("
  ++ Str.of_nat (len document_text) ++ lit " characters)".

(** The request [generate_insights] builds around a prompt (lines 193-201). *)
Definition request_of (float : Type) (prompt model_name : str) (temp : float)
  : Request float :=
  {| model := model_name;
     messages := [ {| role := lit "system"; content := system_content |};
                   {| role := lit "user"; content := prompt |} ];
     max_tokens := 1000;
     temperature := temp |}.

(** The four kinds of failure the handlers tell apart. *)
Inductive error_kind : Type :=
  | authentication | rate_limit | invalid_request | other_failure.

Definition kind_of (e : exception) : error_kind :=
  match exc_class e with
  | AuthenticationError => authentication
  | RateLimitError => rate_limit
  | InvalidRequestError => invalid_request
  | _ => other_failure
  end.

Definition message_for (e : exception) : str :=
  match kind_of e with
  | authentication => invalid_api_key_message
  | rate_limit => rate_limit_message
  | invalid_request => invalid_request_message e
  | other_failure => generic_failure_message e
  end.

(** The session once insights were generated for an extracted document. *)
Definition session_with (filename question insights document_text : str)
  : session_state.t :=
  {| session_state.document_text := Some document_text;
     session_state.insights := Some insights;
     session_state.filename := Some filename;
     session_state.question := Some question |}.

(** ** Sample inputs *)

Definition rtf_upload : UploadedFile :=
  {| name := lit "notes.rtf"; type := lit "application/rtf"; read := [x41] |}.

(** A file named [.pdf] that declares the DOCX MIME type. *)
Definition mislabelled_upload : UploadedFile :=
  {| name := lit "report.pdf";
     type := lit "application/vnd.openxmlformats-officedocument.wordprocessingml.document";
     read := [x25; x50; x44; x46] |}.

Definition docx_upload : UploadedFile :=
  {| name := lit "letter.docx"; type := lit "application/octet-stream"; read := [] |}.

(** A parsed PDF of three pages, and a reader that finds it. *)
Definition three_page_pdf : Pdf :=
  {| pages := [ {| extract_text_of_page := Return (lit "  Page one.") |};
                {| extract_text_of_page := Return (lit "Page two.") |};
                {| extract_text_of_page := Return (lit "Page three. ") |} ] |}.

Definition three_pages (_ : bytes) : result Pdf := Return three_page_pdf.

Definition sample_session : session_state.t :=
  session_with (lit "notes.txt") (lit "Why?") (lit "Because.") (lit "ZEBRA").


Definition full_text : str := List.repeat 97%N max_chars.

Definition sample_question : str := lit "What is the conclusion?".

(** A service that answers, and one that rejects the key. *)
Definition answering (_ : str) (_ : Request unit) : result Response :=
  Return {| choices :=
              [ {| message := {| message_role := lit "assistant";
                                 message_content := Some (lit "The conclusion is X.") |} |} ] |}.


Definition rejected_key : exception :=
  Exc AuthenticationError (lit "Incorrect API key provided").

Definition rejecting (_ : str) (_ : Request unit) : result Response :=
  Raise rejected_key.

(** * The page: session state and one run of the script (lines 214-361) *)

(** Assignments to the other fields of [st.session_state]. *)
Definition set_filename (ss : session_state.t) (v : option str) : session_state.t :=
  {| session_state.document_text := session_state.document_text ss;
     session_state.insights := session_state.insights ss;
     session_state.filename := v;
     session_state.question := session_state.question ss |}.

Definition set_insights (ss : session_state.t) (v : option str) : session_state.t :=
  {| session_state.document_text := session_state.document_text ss;
     session_state.insights := v;
     session_state.filename := session_state.filename ss;
     session_state.question := session_state.question ss |}.

Definition set_question (ss : session_state.t) (v : option str) : session_state.t :=
  {| session_state.document_text := session_state.document_text ss;
     session_state.insights := session_state.insights ss;
     session_state.filename := session_state.filename ss;
     session_state.question := v |}.

(** The truth value of a session field: [None] and the empty string are
    false. *)
Definition truthy (v : option str) : bool :=
  match v with
  | Some (_ :: _) => true
  | _ => false
  end.

(** The code points of the warning sign that opens the validation errors. *)
Definition warning_sign : str := [9888%N; 65039%N].

(** What [st.download_button] is given. *)
Record Download : Type := {
  data : str;
  file_name : str;
  mime : str
}.

(** What the insights section renders: the insight box (line 298) and the
    two downloads. *)
Record InsightsView : Type := {
  insight_box : str;
  download_txt : Download;
  download_md : Download
}.

Module Page.

Section Page.

Variable float : Type.
Variable import_PdfReader : option (bytes -> result Pdf).
Variable import_DocxDocument : option (bytes -> result Docx).
Variable ChatCompletion_create : str -> Request float -> result Response.

(** [f"{size / 1024:.2f}"]: Python's rendering of a size in bytes as
    kilobytes with two decimals. *)
Variable kilobytes : nat -> str.

#[local] Abbreviation M := (M float).

Notation "x <- m ;; k" := (bind m (fun x => k))
  (at level 61, m at next level, right associativity).
Notation "m ;; k" := (bind m (fun _ => k))
  (at level 61, right associativity).

(** Lines 232-250: the uploader's banner, the file name kept in the session,
    and the "Extract Text" button.  [uploaded_file.size] is the number of
    bytes [read()] returns. *)
Definition upload_section (ss : session_state.t)
    (uploaded_file : option UploadedFile) (extract_clicked : bool)
  : M session_state.t :=
  match uploaded_file with
  | Some uploaded_file =>
    emit (st_success float
            (check_mark ++ lit " File uploaded: " ++ name uploaded_file
             ++ lit " (" ++ kilobytes (List.length (read uploaded_file))
             ++ lit " KB)")) ;;
    let ss := set_filename ss (Some (name uploaded_file)) in
    if extract_clicked then
      extract_button import_PdfReader import_DocxDocument ss uploaded_file
    else ret ss
  | None => ret ss
  end.

(** Lines 253-290: the question area and the "Generate Insights" button,
    present only while the session holds a non-empty document text. *)
Definition question_section (ss : session_state.t)
    (openai_api_key question model : str) (temperature : float)
    (generate_clicked : bool)
  : M session_state.t :=
  if truthy (session_state.document_text ss) then
    if generate_clicked then
      if (len openai_api_key =? 0)%nat then
        emit (st_error float
                (warning_sign
                 ++ lit " Please enter your OpenAI API key in the sidebar.")) ;;
        ret ss
      else if (len question =? 0)%nat then
        emit (st_error float (warning_sign ++ lit " Please enter a question.")) ;;
        ret ss
      else
        match session_state.document_text ss with
        | Some document_text =>
          insights <- generate_insights ChatCompletion_create
                        document_text question openai_api_key model temperature ;;
          ret (set_question (set_insights ss insights) (Some question))
        | None => ret ss
        end
    else ret ss
  else ret ss.

(** Lines 357-361: "Analyze Another Document". *)
Definition reset (ss : session_state.t) : session_state.t :=
  {| session_state.document_text := None;
     session_state.insights := None;
     session_state.filename := None;
     session_state.question := session_state.question ss |}.

(** Lines 293-361: the insight box, the two downloads and the reset button,
    present only while the session holds a non-empty insight.  [now_txt] and
    [now_md] are the two values of
    [datetime.now().strftime('%Y-%m-%d %H:%M:%S')].  [st.rerun()] ends the
    run; the run it starts is the next one. *)
Definition insights_section (ss : session_state.t) (now_txt now_md : str)
    (reset_clicked : bool)
  : M (session_state.t * option InsightsView) :=
  if truthy (session_state.insights ss) then
    let box := lit "<div class=" ++ [34%N] ++ lit "insight-box" ++ [34%N]
               ++ lit ">" ++ fmt (session_state.insights ss) ++ lit "</div>" in
    result_text <- lift (result_text ss now_txt) ;;
    let txt := {| data := result_text;
                  file_name := fmt (session_state.filename ss) ++ lit "_insights.txt";
                  mime := lit "text/plain" |} in
    markdown_text <- lift (markdown_text ss now_md) ;;
    let md := {| data := markdown_text;
                 file_name := fmt (session_state.filename ss) ++ lit "_insights.md";
                 mime := lit "text/markdown" |} in
    let view := {| insight_box := box; download_txt := txt; download_md := md |} in
    if reset_clicked then ret (reset ss, Some view)
    else ret (ss, Some view)
  else ret (ss, None).

(** The widgets' values in one run. *)
Record Widgets : Type := {
  uploaded_file : option UploadedFile;
  extract_clicked : bool;
  openai_api_key : str;
  model : str;
  temperature : float;
  question : str;
  generate_clicked : bool;
  now_txt : str;
  now_md : str;
  reset_clicked : bool
}.

(** One run of the script on a session state. *)
Definition script_run (ss : session_state.t) (w : Widgets)
  : M (session_state.t * option InsightsView) :=
  ss <- upload_section ss (uploaded_file w) (extract_clicked w) ;;
  ss <- question_section ss (openai_api_key w) (question w) (model w)
          (temperature w) (generate_clicked w) ;;
  insights_section ss (now_txt w) (now_md w) (reset_clicked w).

(** The session states the script can reach from the initial one. *)
Inductive reachable : session_state.t -> Prop :=
  | reachable_initial : reachable session_state.initial
  | reachable_run (ss ss' : session_state.t) (w : Widgets)
      (view : option InsightsView) (log : list (event float)) :
      reachable ss ->
      run (script_run ss w) = (Return (ss', view), log) ->
      reachable ss'.

End Page.

End Page.

Section LogVocabulary.

Variable float : Type.

(** A computation is framed when it only appends to the log and neither its
    outcome nor what it appends depends on the log it starts from. *)
Definition framed {A : Type} (m : M float A) : Prop :=
  forall log, m log = (fst (m []), log ++ snd (m [])).

(** What the "Extract Text" button shows for an extraction result (lines
    242-250). *)
Definition shown_for (document_text : str) : list (event float) :=
  if is_success document_text then
    [st_success float (success_banner document_text);
     st_text float (slice_to document_text 1000
                    ++ (if (1000 <? len document_text)%nat then lit "..." else []))]
  else [st_error float document_text].

End LogVocabulary.

(** The events of extraction: an extractor's entry, a parser call. *)
Definition parser_event (float : Type) (ev : event float) : bool :=
  match ev with
  | Enter _ _ | Call_PdfReader _ _ | Call_DocxDocument _ _ => true
  | _ => false
  end.

(** A call of the remote completion service. *)
Definition service_call (float : Type) (ev : event float) : bool :=
  match ev with
  | Call_ChatCompletion_create _ _ => true
  | _ => false
  end.

(** What the reports need of a session: with an insight there are a document
    text and a question, and with a document text there is a file name. *)
Definition coherent (ss : session_state.t) : Prop :=
  (session_state.insights ss <> None ->
   session_state.document_text ss <> None /\ session_state.question ss <> None)
  /\ (session_state.document_text ss <> None -> session_state.filename ss <> None).

(** ** Sample inputs of the page *)

(** A reader that rejects the bytes, and one that finds a letter. *)
Definition eof_error : exception :=
  Exc (OtherError (lit "PdfReadError")) (lit "EOF marker not found").

Definition failing_reader (_ : bytes) : result Pdf := Raise eof_error.

Definition letter : Docx :=
  {| paragraphs := [ {| text := lit "Dear reader," |};
                     {| text := lit "goodbye. " |} ] |}.

Definition letter_reader (_ : bytes) : result Docx := Return letter.

(** Plain-text files: "Error: disk full", "Some text.", and blanks. *)
Definition error_log_upload : UploadedFile :=
  {| name := lit "log.txt";
     type := lit "text/plain";
     read := [x45; x72; x72; x6f; x72; x3a; x20; x64; x69; x73; x6b; x20;
              x66; x75; x6c; x6c; x0a] |}.

Definition notes_upload : UploadedFile :=
  {| name := lit "notes.txt";
     type := lit "text/plain";
     read := [x53; x6f; x6d; x65; x20; x74; x65; x78; x74; x2e] |}.

Definition blank_upload : UploadedFile :=
  {| name := lit "blank.txt"; type := lit "text/plain"; read := [x20; x0a; x20] |}.

(** A stand-in for the rendering of the size in kilobytes. *)
Definition sample_kilobytes (_ : nat) : str := lit "0.01".

(** The session after "Some text." was extracted, and after the question
    was answered. *)
Definition extracted_session : session_state.t :=
  session_state.set_document_text
    (set_filename session_state.initial (Some (lit "notes.txt")))
    (Some (lit "Some text.")).

Definition asked_session : session_state.t :=
  session_with (lit "notes.txt") sample_question (lit "The conclusion is X.")
    (lit "Some text.").

(** Widgets: everything filled in and both buttons clicked; the same
    without an API key; the reset button clicked. *)
Definition asking_widgets : Page.Widgets unit :=
  {| Page.uploaded_file := Some notes_upload;
     Page.extract_clicked := true;
     Page.openai_api_key := lit "sk-test";
     Page.model := lit "gpt-4";
     Page.temperature := tt;
     Page.question := sample_question;
     Page.generate_clicked := true;
     Page.now_txt := lit "2024-05-01 10:00:00";
     Page.now_md := lit "2024-05-01 10:00:00";
     Page.reset_clicked := false |}.

Definition keyless_widgets : Page.Widgets unit :=
  {| Page.uploaded_file := Some notes_upload;
     Page.extract_clicked := false;
     Page.openai_api_key := [];
     Page.model := lit "gpt-4";
     Page.temperature := tt;
     Page.question := sample_question;
     Page.generate_clicked := true;
     Page.now_txt := lit "2024-05-01 10:00:00";
     Page.now_md := lit "2024-05-01 10:00:00";
     Page.reset_clicked := false |}.

Definition resetting_widgets : Page.Widgets unit :=
  {| Page.uploaded_file := Some notes_upload;
     Page.extract_clicked := false;
     Page.openai_api_key := lit "sk-test";
     Page.model := lit "gpt-4";
     Page.temperature := tt;
     Page.question := [];
     Page.generate_clicked := false;
     Page.now_txt := lit "2024-05-01 10:05:00";
     Page.now_md := lit "2024-05-01 10:05:00";
     Page.reset_clicked := true |}.

(** * Properties *)

(** ** Strings *)

Module StrFacts.

Lemma eqb_eq (s t : str) : Str.eqb s t = true <-> s = t.
Proof.
  revert t; induction s as [|c s IH]; intros [|d t]; simpl; split;
    try congruence; try reflexivity.
  - intros H. apply andb_true_iff in H as [Hc Hs].
    apply N.eqb_eq in Hc. apply IH in Hs. congruence.
  - intros H. injection H as -> ->. rewrite N.eqb_refl. simpl. now apply IH.
Qed.

Lemma eqb_neq (s t : str) : Str.eqb s t = false <-> s <> t.
Proof.
  rewrite <- eqb_eq. destruct (Str.eqb s t); split; congruence.
Qed.

Lemma startswith_app (s p : str) :
  startswith s p = true <-> exists rest, s = p ++ rest.
Proof.
  revert s; induction p as [|c p IH]; intros s; simpl.
  - split; [intros _; now exists s | reflexivity].
  - destruct s as [|d s].
    + split; [discriminate | intros [rest H]; discriminate].
    + rewrite andb_true_iff, N.eqb_eq, IH. split.
      * intros [-> [rest ->]]. now exists rest.
      * intros [rest H]. injection H as -> ->. split; [reflexivity | now exists rest].
Qed.

Lemma contains_occurs (s needle : str) :
  contains s needle = true <-> occurs needle s.
Proof.
  unfold occurs. induction s as [|c s IH].
  - simpl. rewrite orb_false_r, startswith_app. split.
    + intros [rest H]. exists [], rest. exact H.
    + intros [pre [post H]]. destruct pre; [now exists post | discriminate].
  - cbn [contains]. rewrite orb_true_iff, startswith_app, IH. split.
    + intros [[rest H] | [pre [post H]]].
      * exists [], rest. exact H.
      * exists (c :: pre), post. simpl. now rewrite H.
    + intros [[|d pre] [post H]].
      * left. now exists post.
      * right. injection H as -> ->. now exists pre, post.
Qed.

Lemma occurs_In (needle s : str) (c : char) :
  occurs needle s -> In c needle -> In c s.
Proof.
  intros [pre [post ->]] H. apply in_or_app. right. apply in_or_app. now left.
Qed.

(** Stripping: a trailing newline does not change the result. *)

Lemma lstrip_app (s t : str) :
  lstrip (s ++ t) = if forallb isspace s then lstrip t else lstrip s ++ t.
Proof.
  induction s as [|c s IH]; simpl; [reflexivity|].
  destruct (isspace c); simpl; [exact IH | reflexivity].
Qed.

Lemma lstrip_all_space (s : str) : forallb isspace s = true -> lstrip s = [].
Proof.
  induction s as [|c s IH]; simpl; [reflexivity|].
  destruct (isspace c); simpl; [exact IH | discriminate].
Qed.

Lemma rstrip_snoc_space (s : str) (c : char) :
  isspace c = true -> rstrip (s ++ [c]) = rstrip s.
Proof.
  intros H. unfold rstrip. rewrite rev_app_distr. simpl. now rewrite H.
Qed.

Lemma strip_snoc_space (s : str) (c : char) :
  isspace c = true -> strip (s ++ [c]) = strip s.
Proof.
  intros H. unfold strip. rewrite lstrip_app.
  destruct (forallb isspace s) eqn:E.
  - rewrite (lstrip_all_space s E). simpl. now rewrite H.
  - now apply rstrip_snoc_space.
Qed.

Lemma strip_NL (s : str) : strip (s ++ NL) = strip s.
Proof. now apply strip_snoc_space. Qed.

(** The loop of [extract_text_from_pdf] against [join]. *)
Lemma concat_lines_join (texts : list str) :
  texts <> [] ->
  List.concat (List.map (fun t => t ++ NL) texts) = join NL texts ++ NL.
Proof.
  induction texts as [|t [|u rest] IH]; intros H.
  - congruence.
  - simpl. now rewrite !app_nil_r.
  - change (List.concat (List.map (fun t => t ++ NL) (t :: u :: rest)))
      with ((t ++ NL) ++ List.concat (List.map (fun t => t ++ NL) (u :: rest))).
    rewrite IH by discriminate.
    change (join NL (t :: u :: rest)) with (t ++ NL ++ join NL (u :: rest)).
    now rewrite <- !app_assoc.
Qed.

Lemma endswith_app (s suffix : str) :
  endswith s suffix = true <-> exists front, s = front ++ suffix.
Proof.
  unfold endswith. rewrite startswith_app. split.
  - intros [rest H]. exists (List.rev rest).
    rewrite <- (rev_involutive s), H, rev_app_distr, rev_involutive. reflexivity.
  - intros [front ->]. exists (List.rev front). apply rev_app_distr.
Qed.

(** What stripping removes and what it leaves. *)

Lemma lstrip_spec (s : str) :
  exists l, s = l ++ lstrip s /\ forallb isspace l = true
            /\ forall c rest, lstrip s = c :: rest -> isspace c = false.
Proof.
  induction s as [|c s [l [Hs [Hl Hhead]]]]; simpl.
  - exists []. repeat split. discriminate.
  - destruct (isspace c) eqn:E.
    + exists (c :: l). simpl. rewrite E, Hl. repeat split; [congruence | exact Hhead].
    + exists []. repeat split. intros d rest H. injection H as <- _. exact E.
Qed.

Lemma rstrip_spec (s : str) :
  exists r, s = rstrip s ++ r /\ forallb isspace r = true
            /\ forall c front, rstrip s = front ++ [c] -> isspace c = false.
Proof.
  unfold rstrip. destruct (lstrip_spec (List.rev s)) as [l [Hs [Hl Hhead]]].
  exists (List.rev l). repeat split.
  - rewrite <- rev_app_distr, <- Hs. symmetry. apply rev_involutive.
  - rewrite forallb_forall in *. intros x Hx. apply Hl. now apply in_rev.
  - intros c front H. apply (Hhead c (List.rev front)).
    rewrite <- (rev_involutive (lstrip (List.rev s))), H, rev_app_distr.
    reflexivity.
Qed.

Lemma rstrip_cons (c : char) (s : str) :
  isspace c = false -> rstrip (c :: s) = c :: rstrip s.
Proof.
  intros H. unfold rstrip. simpl. rewrite lstrip_app.
  destruct (forallb isspace (List.rev s)) eqn:E.
  - rewrite (lstrip_all_space _ E). simpl. now rewrite H.
  - rewrite rev_app_distr. reflexivity.
Qed.

(** [strip] takes whitespace, and only whitespace, off both ends, and what
    is left neither starts nor ends with whitespace. *)
Lemma strip_spec (s : str) :
  exists l r,
    s = l ++ strip s ++ r
    /\ forallb isspace l = true /\ forallb isspace r = true
    /\ (forall c rest, strip s = c :: rest -> isspace c = false)
    /\ (forall c front, strip s = front ++ [c] -> isspace c = false).
Proof.
  unfold strip.
  destruct (lstrip_spec s) as [l [Hs [Hl Hhead]]].
  destruct (rstrip_spec (lstrip s)) as [r [Hr [Hsp Hlast]]].
  exists l, r. repeat split; try assumption.
  - rewrite <- Hr. exact Hs.
  - intros c rest H. destruct (lstrip s) as [|d t] eqn:E.
    + discriminate H.
    + pose proof (Hhead d t eq_refl) as Hd.
      rewrite rstrip_cons in H by exact Hd. injection H as <- _. exact Hd.
Qed.

End StrFacts.

(** ** UTF-8 decoding with [errors='ignore'] *)

Module Utf8Facts.
Import Utf8.

Lemma subseq_nil_l {A : Type} (s : list A) : subseq [] s.
Proof. induction s; constructor; assumption. Qed.

Local Ltac drop_until H := first [exact H | apply subseq_drop; drop_until H].

Local Ltac skip IH :=
  (* an error in [ignore] mode: decoding goes on with a shorter input *)
  match goal with
  | |- context [error ignore _ (decode ignore ?rest)] =>
    let d := fresh "d" in let kept := fresh "kept" in
    let Hd := fresh "Hd" in let Hs := fresh "Hs" in let Hk := fresh "Hk" in
    destruct (IH rest ltac:(simpl in *; lia)) as [d [Hd [kept [Hs Hk]]]];
    exists d; split; [exact Hd|];
    exists kept; split; [drop_until Hs | exact Hk]
  | |- context [error ignore _ (Return [])] =>
    exists []; split; [reflexivity|];
    exists []; split; [apply subseq_nil_l | reflexivity]
  end.

Local Ltac keep IH bs :=
  (* a decoded character: its bytes [bs] are kept *)
  match goal with
  | |- context [put ?c (decode ignore ?rest)] =>
    let d := fresh "d" in let kept := fresh "kept" in
    let Hd := fresh "Hd" in let Hs := fresh "Hs" in let Hk := fresh "Hk" in
    destruct (IH rest ltac:(simpl in *; lia)) as [d [Hd [kept [Hs Hk]]]];
    exists (c :: d); split; [rewrite Hd; reflexivity|];
    exists (bs ++ kept); split;
    [ simpl; repeat apply subseq_keep; exact Hs
    | cbn [app decode]; unfold decode_at;
      repeat match goal with H : _ = _ |- _ => rewrite H end;
      reflexivity ]
  end.

Lemma decode_ignore_dropped (n : nat) :
  forall s, List.length s <= n ->
  exists decoded, decode ignore s = Return decoded /\ dropped_decoding s decoded.
Proof.
  unfold dropped_decoding.
  induction n as [|n IH]; intros s Hn.
  - destruct s; [|simpl in Hn; lia].
    exists []; split; [reflexivity|]. exists []; split; [constructor | reflexivity].
  - destruct s as [|b1 s1].
    { exists []; split; [reflexivity|]. exists []; split; [constructor | reflexivity]. }
    cbn [decode]. unfold decode_at.
    destruct (Byte.to_N b1 <? 128)%N eqn:E1; [keep IH constr:([b1])|].
    destruct (Byte.to_N b1 <? 194)%N eqn:E2; [skip IH|].
    destruct (Byte.to_N b1 <? 224)%N eqn:E3.
    { destruct s1 as [|b2 s2]; [skip IH|].
      destruct (negb (is_continuation (Byte.to_N b2))) eqn:C2; [skip IH|].
      keep IH constr:([b1; b2]). }
    destruct (Byte.to_N b1 <? 240)%N eqn:E4.
    { destruct s1 as [|b2 s2]; [skip IH|].
      destruct (negb (is_continuation (Byte.to_N b2))
                || (if (Byte.to_N b2 <? 160)%N then (Byte.to_N b1 =? 224)%N
                    else (Byte.to_N b1 =? 237)%N)) eqn:C2; [skip IH|].
      destruct s2 as [|b3 s3]; [skip IH|].
      destruct (negb (is_continuation (Byte.to_N b3))) eqn:C3; [skip IH|].
      keep IH constr:([b1; b2; b3]). }
    destruct (Byte.to_N b1 <? 245)%N eqn:E5; [|skip IH].
    destruct s1 as [|b2 s2]; [skip IH|].
    destruct (negb (is_continuation (Byte.to_N b2))
              || (if (Byte.to_N b2 <? 144)%N then (Byte.to_N b1 =? 240)%N
                  else (Byte.to_N b1 =? 244)%N)) eqn:C2; [skip IH|].
    destruct s2 as [|b3 s3]; [skip IH|].
    destruct (negb (is_continuation (Byte.to_N b3))) eqn:C3; [skip IH|].
    destruct s3 as [|b4 s4]; [skip IH|].
    destruct (negb (is_continuation (Byte.to_N b4))) eqn:C4; [skip IH|].
    keep IH constr:([b1; b2; b3; b4]).
Qed.

(** Decoding in [ignore] mode never raises. *)
Lemma decode_ignore_total (s : bytes) :
  exists decoded, decode ignore s = Return decoded /\ dropped_decoding s decoded.
Proof. exact (decode_ignore_dropped (n := List.length s) s (le_n _)). Qed.

(** On valid UTF-8 nothing is skipped: the two modes agree. *)
Lemma decode_strict_ignore (n : nat) :
  forall s decoded, List.length s <= n ->
  decode strict s = Return decoded -> decode ignore s = Return decoded.
Proof.
  induction n as [|n IH]; intros s decoded Hn H.
  - destruct s; [exact H | simpl in Hn; lia].
  - destruct s as [|b1 s1]; [exact H|].
    cbn [decode] in *. unfold decode_at in *.
    repeat match goal with
           | H : context [if ?c then _ else _] |- _ => destruct c eqn:?
           | H : context [match ?l with [] => _ | _ :: _ => _ end] |- _ => destruct l
           end;
      try discriminate H;
      match type of H with
      | put ?c (decode strict ?rest) = _ =>
        destruct (decode strict rest) as [d|e] eqn:Hr; [|discriminate H];
        rewrite (IH rest d ltac:(simpl in *; lia) Hr); exact H
      end.
Qed.

Lemma decode_valid (s : bytes) (decoded : str) :
  decode strict s = Return decoded -> decode ignore s = Return decoded.
Proof. exact (decode_strict_ignore (n := List.length s) s (le_n _)). Qed.

(** The decoder inverts the encoder, in both modes. *)

Lemma to_N_byte_of (n : N) : (n < 256)%N -> Byte.to_N (byte_of n) = n.
Proof.
  intros H. unfold byte_of. destruct (Byte.of_N n) as [b|] eqn:E.
  - now apply Byte.to_of_N.
  - pose proof (Byte.to_of_N_option_map n) as Hm. rewrite E in Hm. simpl in Hm.
    destruct (n <=? 255)%N eqn:L; [discriminate Hm|].
    apply N.leb_gt in L. lia.
Qed.

Local Ltac to_props :=
  repeat match goal with
         | H : (_ <? _)%N = true |- _ => apply N.ltb_lt in H
         | H : (_ <? _)%N = false |- _ => apply N.ltb_ge in H
         | H : (_ <=? _)%N = true |- _ => apply N.leb_le in H
         | H : (_ <=? _)%N = false |- _ => apply N.leb_gt in H
         | H : (_ =? _)%N = true |- _ => apply N.eqb_eq in H
         | H : (_ =? _)%N = false |- _ => apply N.eqb_neq in H
         end.

Local Ltac arith := to_props; zify; Z.to_euclidean_division_equations; lia.

Local Ltac decide_tests :=
  repeat match goal with
         | |- context [(?a <? ?b)%N] =>
           destruct (a <? b)%N eqn:?; try (exfalso; arith)
         | |- context [(?a <=? ?b)%N] =>
           destruct (a <=? b)%N eqn:?; try (exfalso; arith)
         | |- context [(?a =? ?b)%N] =>
           destruct (a =? b)%N eqn:?; try (exfalso; arith)
         end.

Lemma decode_encode_char (errors : errors_mode) (c : char) (rest : bytes) :
  scalar c ->
  decode errors (encode_char c ++ rest) = put c (decode errors rest).
Proof.
  unfold scalar, encode_char. intros Hc.
  destruct (c <? 128)%N eqn:E1;
    [|destruct (c <? 2048)%N eqn:E2; [|destruct (c <? 65536)%N eqn:E3]];
    cbn [app decode]; unfold decode_at, is_continuation;
    rewrite !to_N_byte_of by arith;
    decide_tests; cbn [negb orb andb]; f_equal; arith.
Qed.

Lemma decode_encode (errors : errors_mode) (s : str) :
  Forall scalar s -> decode errors (encode s) = Return s.
Proof.
  induction 1 as [|c s Hc _ IH]; [reflexivity|].
  unfold encode in *. simpl. rewrite decode_encode_char by exact Hc.
  now rewrite IH.
Qed.

(** The decoder against the encoder, position by position. *)

Lemma byte_of_to_N (b : byte) : byte_of (Byte.to_N b) = b.
Proof. unfold byte_of. now rewrite Byte.of_to_N. Qed.

(** One turn of the decoder on the encoding of a character, whatever decodes
    the rest. *)
Lemma decode_at_encode_char (rest_of : bytes -> result str)
    (errors : errors_mode) (c : char) (rest : bytes) :
  scalar c ->
  exists b1 s1,
    encode_char c ++ rest = b1 :: s1
    /\ decode_at rest_of errors b1 s1 = put c (rest_of rest).
Proof.
  unfold scalar, encode_char. intros Hc.
  destruct (c <? 128)%N eqn:E1;
    [|destruct (c <? 2048)%N eqn:E2; [|destruct (c <? 65536)%N eqn:E3]];
    eexists; eexists; (split; [reflexivity|]);
    unfold decode_at, is_continuation;
    rewrite !to_N_byte_of by arith;
    decide_tests; cbn [negb orb andb]; f_equal; arith.
Qed.

Lemma encode_char_length (c : char) : 1 <= List.length (encode_char c).
Proof.
  unfold encode_char.
  repeat match goal with |- context [if ?t then _ else _] => destruct t end;
    simpl; lia.
Qed.

(** A continuation byte where a character should start is skipped. *)
Lemma skip_continuation (b : byte) (s : bytes) :
  is_continuation (Byte.to_N b) = true ->
  decode ignore (b :: s) = decode ignore s.
Proof.
  unfold is_continuation. intros H. apply andb_true_iff in H. destruct H as [H1 H2].
  cbn [decode]. unfold decode_at.
  decide_tests. reflexivity.
Qed.

Local Ltac split_tests :=
  repeat match goal with
         | H : negb _ = false |- _ => apply negb_false_iff in H
         | H : negb _ = true |- _ => apply negb_true_iff in H
         | H : (_ || _) = false |- _ =>
           apply orb_false_iff in H; destruct H
         | H : (_ && _) = true |- _ =>
           apply andb_true_iff in H; destruct H
         | H : is_continuation _ = _ |- _ => unfold is_continuation in H
         | H : (if ?t then _ else _) = false |- _ => destruct t eqn:?
         end.

Local Ltac bytes_back :=
  (* the bytes the encoder gives for a decoded character are the bytes read *)
  symmetry; unfold encode_char; decide_tests; cbn [app];
  repeat match goal with
         | |- ?b :: _ = ?b :: _ => f_equal
         | |- byte_of ?e :: _ = ?b :: _ =>
           replace e with (Byte.to_N b) by arith; rewrite byte_of_to_N
         end;
  reflexivity.

(** At each position: the input opens with the encoding of a character, or
    its first byte is one the decoder skips. *)
Lemma lead_cases (b1 : byte) (s1 : bytes) :
  (exists c rest, scalar c /\ b1 :: s1 = encode_char c ++ rest)
  \/ (decode ignore (b1 :: s1) = decode ignore s1
      /\ exists e, decode_at (fun _ => Return []) strict b1 s1 = Raise e).
Proof.
  pose proof (Byte.to_N_bounded b1) as B1.
  cbn [decode]. unfold decode_at. cbn [error].
  destruct (Byte.to_N b1 <? 128)%N eqn:E1.
  { left. exists (Byte.to_N b1), s1. split; [unfold scalar; arith | bytes_back]. }
  destruct (Byte.to_N b1 <? 194)%N eqn:E2.
  { right. split; [reflexivity | eexists; reflexivity]. }
  destruct (Byte.to_N b1 <? 224)%N eqn:E3.
  { destruct s1 as [|b2 s2]; [right; split; [reflexivity | eexists; reflexivity]|].
    pose proof (Byte.to_N_bounded b2) as B2.
    destruct (negb (is_continuation (Byte.to_N b2))) eqn:C2;
      [right; split; [reflexivity | eexists; reflexivity]|].
    left. exists (Byte.to_N b1 * 64 + Byte.to_N b2 - (0xC0 * 64 + 0x80))%N, s2.
    split_tests. split; [unfold scalar; arith | bytes_back]. }
  destruct (Byte.to_N b1 <? 240)%N eqn:E4.
  { destruct s1 as [|b2 s2]; [right; split; [reflexivity | eexists; reflexivity]|].
    pose proof (Byte.to_N_bounded b2) as B2.
    destruct (negb (is_continuation (Byte.to_N b2))
              || (if (Byte.to_N b2 <? 160)%N then (Byte.to_N b1 =? 224)%N
                  else (Byte.to_N b1 =? 237)%N)) eqn:C2;
      [right; split; [reflexivity | eexists; reflexivity]|].
    assert (K2 : is_continuation (Byte.to_N b2) = true)
      by (apply orb_false_iff in C2; destruct C2 as [C2 _];
          now apply negb_false_iff in C2).
    destruct s2 as [|b3 s3].
    { right. split; [now rewrite (@skip_continuation b2 _ K2)
                    | eexists; reflexivity]. }
    pose proof (Byte.to_N_bounded b3) as B3.
    destruct (negb (is_continuation (Byte.to_N b3))) eqn:C3.
    { right. split; [now rewrite (@skip_continuation b2 _ K2)
                    | eexists; reflexivity]. }
    left.
    exists (Byte.to_N b1 * 4096 + Byte.to_N b2 * 64 + Byte.to_N b3
            - (0xE0 * 4096 + 0x80 * 64 + 0x80))%N, s3.
    clear K2. split_tests. 
    all: split; [unfold scalar; arith | bytes_back]. }
  destruct (Byte.to_N b1 <? 245)%N eqn:E5;
    [|right; split; [reflexivity | eexists; reflexivity]].
  destruct s1 as [|b2 s2]; [right; split; [reflexivity | eexists; reflexivity]|].
  pose proof (Byte.to_N_bounded b2) as B2.
  destruct (negb (is_continuation (Byte.to_N b2))
            || (if (Byte.to_N b2 <? 144)%N then (Byte.to_N b1 =? 240)%N
                else (Byte.to_N b1 =? 244)%N)) eqn:C2;
    [right; split; [reflexivity | eexists; reflexivity]|].
  assert (K2 : is_continuation (Byte.to_N b2) = true)
    by (apply orb_false_iff in C2; destruct C2 as [C2 _];
        now apply negb_false_iff in C2).
  destruct s2 as [|b3 s3].
  { right. split; [now rewrite (@skip_continuation b2 _ K2)
                  | eexists; reflexivity]. }
  pose proof (Byte.to_N_bounded b3) as B3.
  destruct (negb (is_continuation (Byte.to_N b3))) eqn:C3.
  { right. split; [now rewrite (@skip_continuation b2 _ K2)
                  | eexists; reflexivity]. }
  assert (K3 : is_continuation (Byte.to_N b3) = true)
    by now apply negb_false_iff in C3.
  destruct s3 as [|b4 s4].
  { right. split; [now rewrite (@skip_continuation b2 _ K2), (@skip_continuation b3 _ K3)
                  | eexists; reflexivity]. }
  pose proof (Byte.to_N_bounded b4) as B4.
  destruct (negb (is_continuation (Byte.to_N b4))) eqn:C4.
  { right. split; [now rewrite (@skip_continuation b2 _ K2), (@skip_continuation b3 _ K3)
                  | eexists; reflexivity]. }
  left.
  exists (Byte.to_N b1 * 262144 + Byte.to_N b2 * 4096 + Byte.to_N b3 * 64
          + Byte.to_N b4
          - (0xF0 * 262144 + 0x80 * 4096 + 0x80 * 64 + 0x80))%N, s4.
  clear K2 K3. split_tests.
  all: split; [unfold scalar; arith | bytes_back].
Qed.

Lemma decode_ignore_spec (n : nat) :
  forall s decoded, List.length s <= n ->
  decode ignore s = Return decoded -> utf8_ignoring s decoded.
Proof.
  induction n as [|n IH]; intros s decoded Hn H.
  - destruct s; [|simpl in Hn; lia]. injection H as <-. constructor.
  - destruct s as [|b1 s1]; [injection H as <-; constructor|].
    destruct (lead_cases b1 s1) as [[c [rest [Hc Heq]]] | [Hskip [e He]]].
    + rewrite Heq in H |- *. rewrite decode_encode_char in H by exact Hc.
      destruct (decode ignore rest) as [d|] eqn:Hd; [|discriminate H].
      injection H as <-. apply ignoring_char; [exact Hc|].
      apply IH; [|exact Hd].
      apply (f_equal (@List.length byte)) in Heq. rewrite length_app in Heq.
      pose proof (encode_char_length c). simpl in *. lia.
    + rewrite Hskip in H. apply ignoring_skip.
      * intros c rest' Hc Heq.
        destruct (decode_at_encode_char (fun _ => Return []) strict rest' Hc)
          as [b [s [Hbs Hdec]]].
        rewrite <- Heq in Hbs. injection Hbs as <- <-.
        rewrite He in Hdec. discriminate Hdec.
      * apply IH; [simpl in Hn; lia | exact H].
Qed.

Lemma utf8_ignoring_decode (s : bytes) (decoded : str) :
  utf8_ignoring s decoded -> decode ignore s = Return decoded.
Proof.
  induction 1 as [|c rest s Hc _ IH|b rest s Hno _ IH].
  - reflexivity.
  - rewrite decode_encode_char by exact Hc. now rewrite IH.
  - destruct (lead_cases b rest) as [[c [rest' [Hc Heq]]] | [Hskip _]].
    + exfalso. exact (Hno c rest' Hc Heq).
    + now rewrite Hskip.
Qed.

(** Decoding with [errors='ignore'] is the decoding [utf8_ignoring]
    describes, which is therefore a function of the input. *)
Lemma decode_ignore_iff (s : bytes) (decoded : str) :
  decode ignore s = Return decoded <-> utf8_ignoring s decoded.
Proof.
  split; [exact (@decode_ignore_spec (List.length s) s decoded (le_n _))
         | apply utf8_ignoring_decode].
Qed.

Example utf8_ignoring_skips :
  utf8_ignoring [x41; xff; xe2; x9d; x42; xc3; xa9] [65; 66; 233]%N.
Proof. apply decode_ignore_iff. reflexivity. Qed.

(** The decoder on the script's own non-ASCII characters, and on bytes that
    are not UTF-8. *)
Example decode_valid_text :
  decode strict [x41; xc3; xa9; xe2; x9d; x8c; xf0; x9f; x93; x84]
  = Return [65; 233; 10060; 128196]%N.
Proof. reflexivity. Qed.

Example decode_ignore_skips :
  decode ignore [x41; xff; xe2; x9d; x42; xc0; x80; xed; xa0; x80; xe2; x9d]
  = Return [65; 66]%N.
Proof. reflexivity. Qed.

Example decode_strict_raises :
  decode strict [x41; xff]
  = Raise (Exc UnicodeDecodeError (lit "invalid start byte")).
Proof. reflexivity. Qed.

End Utf8Facts.

(** ** Running computations *)

Section MonadFacts.

Variable float : Type.

#[local] Abbreviation M := (M float).

Lemma bind_emit {B : Type} (ev : event float) (k : unit -> M B) (log : list (event float)) :
  bind (emit ev) k log = k tt (log ++ [ev]).
Proof. reflexivity. Qed.

Lemma bind_lift {A B : Type} (r : result A) (k : A -> M B) (log : list (event float)) :
  bind (lift r) k log
  = match r with Return a => k a log | Raise e => (Raise e, log) end.
Proof. reflexivity. Qed.

Lemma bind_call {A B : Type} (ev : event float) (r : result A) (k : A -> M B)
    (log : list (event float)) :
  bind (call ev r) k log
  = match r with
    | Return a => k a (log ++ [ev])
    | Raise e => (Raise e, log ++ [ev])
    end.
Proof. reflexivity. Qed.

Lemma bind_run {A B : Type} (m : M A) (k : A -> M B) (log log' : list (event float))
    (r : result A) :
  m log = (r, log') ->
  bind m k log = match r with Return a => k a log' | Raise e => (Raise e, log') end.
Proof. intros H. unfold bind. now rewrite H. Qed.

End MonadFacts.

(** ** Extraction *)

Section Extraction.

Variable float : Type.
Variable import_PdfReader : option (bytes -> result Pdf).
Variable import_DocxDocument : option (bytes -> result Docx).

#[local] Abbreviation from_pdf_M := (@extract_text_from_pdf float import_PdfReader).
#[local] Abbreviation from_docx_M := (@extract_text_from_docx float import_DocxDocument).
#[local] Abbreviation from_txt_M := (@extract_text_from_txt float).
#[local] Abbreviation extract_text_M := (@extract_text float import_PdfReader import_DocxDocument).
#[local] Abbreviation entered := (Enter float).
#[local] Abbreviation extractor_M := (@extractor_M float import_PdfReader import_DocxDocument).
#[local] Abbreviation routed_to := (@routed_to float import_PdfReader import_DocxDocument).

Lemma criteria_test (t mime n suffix : str) :
  Str.eqb t mime || endswith n suffix = true <->
  t = mime \/ endswith n suffix = true.
Proof. now rewrite orb_true_iff, StrFacts.eqb_eq. Qed.

Lemma criteria_test_false (t mime n suffix : str) :
  ~ (t = mime \/ endswith n suffix = true) ->
  Str.eqb t mime || endswith n suffix = false.
Proof.
  intros H. destruct (Str.eqb t mime || endswith n suffix) eqn:E; [|reflexivity].
  apply criteria_test in E. contradiction.
Qed.

(** The page loop of [extract_text_from_pdf]: with every page yielding a
    text it appends each text and a newline, and it leaves the log alone. *)
Lemma for_each_pages (page_list : list PdfPage) (texts : list str) :
  List.map extract_text_of_page page_list = List.map Return texts ->
  forall (acc : str) (log : list (event float)),
    for_each page_list
      (fun text page =>
         bind (lift (extract_text_of_page page))
              (fun page_text => ret (text ++ page_text ++ NL)))
      acc log
    = (Return (acc ++ List.concat (List.map (fun t => t ++ NL) texts)), log).
Proof.
  revert texts; induction page_list as [|p ps IH]; intros [|t ts] H acc log;
    try discriminate H.
  - simpl. now rewrite app_nil_r.
  - simpl in H. injection H as Hp Hps.
    cbn [for_each].
    erewrite bind_run by (rewrite bind_lift, Hp; reflexivity).
    cbv beta iota. rewrite (IH ts Hps). simpl. now rewrite <- !app_assoc.
Qed.

Lemma for_each_pages_log (page_list : list PdfPage) :
  forall (acc : str) (log : list (event float)),
    exists r,
      for_each page_list
        (fun text page =>
           bind (lift (extract_text_of_page page))
                (fun page_text => ret (text ++ page_text ++ NL)))
        acc log = (r, log).
Proof.
  induction page_list as [|p ps IH]; intros acc log.
  - now exists (Return acc).
  - cbn [for_each]. unfold bind at 1. rewrite bind_lift.
    destruct (extract_text_of_page p) as [t|e]; [|now exists (Raise e)].
    unfold ret at 1. apply IH.
Qed.

(** Every extractor logs its entry first, returns a string, and calls at
    most its own library parser. *)
Lemma extract_text_from_pdf_log (file_bytes : bytes) :
  exists out,
    run (from_pdf_M file_bytes) = (Return out, [entered from_pdf])
    \/ run (from_pdf_M file_bytes)
       = (Return out, [entered from_pdf; Call_PdfReader float file_bytes]).
Proof.
  unfold run, extract_text_from_pdf, PDF_AVAILABLE, PdfReader.
  rewrite bind_emit. cbn [app].
  destruct import_PdfReader as [reader|]; cbn [negb].
  - unfold try_except. rewrite bind_call. cbn [app].
    destruct (reader file_bytes) as [pdf|e].
    + match goal with
      | |- context [bind (for_each ?ps ?body ?acc) ?k ?log] =>
        destruct (for_each_pages_log ps acc log) as [r Hr];
        erewrite bind_run by exact Hr
      end.
      destruct r as [text|e]; eexists; right; reflexivity.
    + eexists; right; reflexivity.
  - eexists; left; reflexivity.
Qed.

Lemma extract_text_from_docx_log (file_bytes : bytes) :
  exists out,
    run (from_docx_M file_bytes) = (Return out, [entered from_docx])
    \/ run (from_docx_M file_bytes)
       = (Return out, [entered from_docx; Call_DocxDocument float file_bytes]).
Proof.
  unfold run, extract_text_from_docx, DOCX_AVAILABLE, DocxDocument.
  rewrite bind_emit. cbn [app].
  destruct import_DocxDocument as [reader|]; cbn [negb].
  - unfold try_except. rewrite bind_call. cbn [app].
    destruct (reader file_bytes) as [doc|e]; eexists; right; reflexivity.
  - eexists; left; reflexivity.
Qed.

Lemma extract_text_from_txt_run (file_bytes : bytes) (decoded : str) :
  Utf8.decode ignore file_bytes = Return decoded ->
  run (from_txt_M file_bytes) = (Return (strip decoded), [entered from_txt]).
Proof.
  intros H. unfold run, extract_text_from_txt.
  rewrite bind_emit. cbn [app]. unfold try_except. rewrite bind_lift, H.
  reflexivity.
Qed.

(** C3: for every byte sequence [extract_text_from_txt] returns a string and
    never raises.  The string is the input decoded as UTF-8 with
    [errors='ignore'], with leading and trailing whitespace stripped.  The
    decoding is the one [utf8_ignoring] describes, and the only one: every
    well-formed character is decoded, a byte that opens no well-formed
    character is dropped, and nothing else is; so it is the strict decoding
    of the input with the skipped bytes left out, the strict decoding of the
    whole input when that is valid UTF-8, and [original] when the input is
    the UTF-8 encoding of [original].  Stripping takes whitespace, and only
    whitespace, off both ends, and leaves a string that neither starts nor
    ends with whitespace. *)
Theorem extract_text_from_txt_never_raises (file_bytes : bytes) :
  exists decoded text,
    run (from_txt_M file_bytes) = (Return text, [entered from_txt])
    /\ Utf8.decode ignore file_bytes = Return decoded
    /\ (forall s, utf8_ignoring file_bytes s <-> s = decoded)
    /\ dropped_decoding file_bytes decoded
    /\ (forall valid, Utf8.decode strict file_bytes = Return valid -> decoded = valid)
    /\ (forall original, Forall scalar original -> file_bytes = encode original ->
        decoded = original)
    /\ text = strip decoded
    /\ (exists l r,
          decoded = l ++ text ++ r
          /\ forallb isspace l = true /\ forallb isspace r = true
          /\ (forall c rest, text = c :: rest -> isspace c = false)
          /\ (forall c front, text = front ++ [c] -> isspace c = false)).
Proof.
  destruct (Utf8Facts.decode_ignore_total file_bytes) as [decoded [Hd Hk]].
  exists decoded, (strip decoded).
  split; [now apply extract_text_from_txt_run|].
  split; [exact Hd|].
  split.
  { intros s. rewrite <- Utf8Facts.decode_ignore_iff, Hd.
    split; [intros [= ->]; reflexivity | intros ->; reflexivity]. }
  split; [exact Hk|].
  split.
  { intros valid Hv. apply Utf8Facts.decode_valid in Hv. congruence. }
  split.
  { intros original Horiginal ->.
    rewrite (Utf8Facts.decode_encode ignore Horiginal) in Hd. congruence. }
  split; [reflexivity|].
  apply StrFacts.strip_spec.
Qed.

(** The result of the plain-text path may be empty, also for a non-empty
    input: an invalid byte followed by a space and a newline. *)
Example extract_text_from_txt_may_be_empty :
  run (from_txt_M [xff; x20; x0a]) = (Return [], [entered from_txt]).
Proof. reflexivity. Qed.

(** C6: a file whose MIME type is none of the three supported ones and whose
    name ends with none of the three extensions gets the unsupported-format
    message, which names PDF, DOCX and TXT; no extractor is entered and no
    library parser is called (the log stays empty). *)
Theorem extract_text_unsupported (uploaded_file : UploadedFile) :
  type uploaded_file <> lit "application/pdf" ->
  type uploaded_file
    <> lit "application/vnd.openxmlformats-officedocument.wordprocessingml.document" ->
  type uploaded_file <> lit "text/plain" ->
  endswith (name uploaded_file) (lit ".pdf") = false ->
  endswith (name uploaded_file) (lit ".docx") = false ->
  endswith (name uploaded_file) (lit ".txt") = false ->
  run (extract_text_M uploaded_file) = (Return unsupported_message, [])
  /\ unsupported_message
     = lit "Unsupported file format. Please upload PDF, DOCX, or TXT files."
  /\ occurs (lit "PDF") unsupported_message
  /\ occurs (lit "DOCX") unsupported_message
  /\ occurs (lit "TXT") unsupported_message.
Proof.
  intros Hpdf Hdocx Htxt Epdf Edocx Etxt. split; [|split; [reflexivity|]].
  - unfold run, extract_text.
    apply StrFacts.eqb_neq in Hpdf, Hdocx, Htxt.
    rewrite Hpdf, Hdocx, Htxt, Epdf, Edocx, Etxt. reflexivity.
  - repeat split; apply StrFacts.contains_occurs; reflexivity.
Qed.

(** C7: with PyPDF2 imported, the reader accepting the bytes and every page
    yielding a text, [extract_text_from_pdf] returns the page texts joined
    by newlines, in page order, stripped. *)
Theorem extract_text_from_pdf_joins_pages
    (reader : bytes -> result Pdf) (file_bytes : bytes) (pdf : Pdf) (texts : list str) :
  import_PdfReader = Some reader ->
  reader file_bytes = Return pdf ->
  List.map extract_text_of_page (pages pdf) = List.map Return texts ->
  run (from_pdf_M file_bytes)
  = (Return (strip (join NL texts)),
     [entered from_pdf; Call_PdfReader float file_bytes]).
Proof.
  intros Himport Hreader Hpages.
  unfold run, extract_text_from_pdf, PDF_AVAILABLE, PdfReader.
  rewrite Himport, bind_emit. cbn [app negb].
  unfold try_except. rewrite bind_call, Hreader. cbn [app].
  erewrite bind_run by (apply for_each_pages; exact Hpages).
  unfold ret. f_equal. f_equal. cbn [app].
  destruct texts as [|t ts]; [reflexivity|].
  rewrite StrFacts.concat_lines_join by discriminate.
  apply StrFacts.strip_NL.
Qed.

Lemma extractor_M_log (e : extractor) (file_bytes : bytes) :
  exists out calls,
    run (extractor_M e file_bytes) = (Return out, entered e :: calls)
    /\ forall e', ~ In (entered e') calls.
Proof.
  destruct e; cbn [extractor_M].
  - destruct (extract_text_from_pdf_log file_bytes) as [out [H | H]];
      rewrite H; eexists; eexists; (split; [reflexivity|]);
      intros e' Hin; simpl in Hin; intuition discriminate.
  - destruct (extract_text_from_docx_log file_bytes) as [out [H | H]];
      rewrite H; eexists; eexists; (split; [reflexivity|]);
      intros e' Hin; simpl in Hin; intuition discriminate.
  - destruct (Utf8Facts.decode_ignore_total file_bytes) as [decoded [Hd _]].
    rewrite (extract_text_from_txt_run _ Hd).
    eexists; eexists; (split; [reflexivity|]). intros e' [].
Qed.

Lemma routed_to_intro (e : extractor) (uploaded_file : UploadedFile) :
  extract_text_M uploaded_file = extractor_M e (read uploaded_file) ->
  routed_to e uploaded_file.
Proof.
  intros H. split; [exact H|]. rewrite H. apply extractor_M_log.
Qed.

Lemma pdf_criteria_routed (uploaded_file : UploadedFile) :
  pdf_criteria uploaded_file -> routed_to from_pdf uploaded_file.
Proof.
  intros H. apply routed_to_intro. unfold extract_text.
  apply criteria_test in H. now rewrite H.
Qed.

(** C10: the dispatcher tests the PDF criteria first, then DOCX, then plain
    text, and the file name's extension alone selects a branch: a name that
    ends with [.pdf] goes to the PDF extractor whatever the MIME type, and
    so does a file that meets both the PDF and the DOCX criteria. *)
Theorem extract_text_dispatch_order (uploaded_file : UploadedFile) :
  (endswith (name uploaded_file) (lit ".pdf") = true ->
   routed_to from_pdf uploaded_file)
  /\ (pdf_criteria uploaded_file -> routed_to from_pdf uploaded_file)
  /\ (pdf_criteria uploaded_file /\ docx_criteria uploaded_file ->
      routed_to from_pdf uploaded_file)
  /\ (~ pdf_criteria uploaded_file -> docx_criteria uploaded_file ->
      routed_to from_docx uploaded_file)
  /\ (~ pdf_criteria uploaded_file -> ~ docx_criteria uploaded_file ->
      txt_criteria uploaded_file -> routed_to from_txt uploaded_file).
Proof.
  split; [|split; [|split; [|split]]].
  - intros Hname. apply pdf_criteria_routed. now right.
  - apply pdf_criteria_routed.
  - intros [Hpdf _]. now apply pdf_criteria_routed.
  - intros Hpdf Hdocx. apply routed_to_intro. unfold extract_text.
    rewrite criteria_test_false by exact Hpdf. apply criteria_test in Hdocx.
    now rewrite Hdocx.
  - intros Hpdf Hdocx Htxt. apply routed_to_intro. unfold extract_text.
    rewrite criteria_test_false by exact Hpdf.
    rewrite criteria_test_false by exact Hdocx.
    apply criteria_test in Htxt. now rewrite Htxt.
Qed.

(** *** The "Extract Text" button *)

#[local] Abbreviation extract_button_M :=
  (@extract_button float import_PdfReader import_DocxDocument).

Lemma is_success_iff (document_text : str) :
  is_success document_text = true <->
  document_text <> []
  /\ startswith document_text (lit "Error") = false
  /\ startswith document_text (lit "Unsupported") = false.
Proof.
  unfold is_success. rewrite !andb_true_iff, !negb_true_iff, Nat.eqb_neq.
  assert (Hlen : len document_text <> 0 <-> document_text <> []).
  { destruct document_text; simpl; split; congruence. }
  rewrite Hlen. tauto.
Qed.

Lemma extract_text_pdf_unavailable (uploaded_file : UploadedFile) :
  import_PdfReader = None -> pdf_criteria uploaded_file ->
  run (extract_text_M uploaded_file)
  = (Return pdf_unavailable_message, [entered from_pdf]).
Proof.
  intros Himport Hpdf.
  destruct (pdf_criteria_routed Hpdf) as [-> _]. cbn [extractor_M].
  unfold run, extract_text_from_pdf, PDF_AVAILABLE. rewrite Himport.
  reflexivity.
Qed.

Lemma extract_text_docx_unavailable (uploaded_file : UploadedFile) :
  import_DocxDocument = None ->
  ~ pdf_criteria uploaded_file -> docx_criteria uploaded_file ->
  run (extract_text_M uploaded_file)
  = (Return docx_unavailable_message, [entered from_docx]).
Proof.
  intros Himport Hpdf Hdocx.
  unfold run, extract_text.
  rewrite criteria_test_false by exact Hpdf.
  apply criteria_test in Hdocx. rewrite Hdocx.
  unfold extract_text_from_docx, DOCX_AVAILABLE. rewrite Himport.
  reflexivity.
Qed.

(** C9: the UI takes an extraction result for a success exactly when it is
    non-empty and starts with neither "Error" nor "Unsupported".  The two
    capability-unavailable messages start with neither, so with the parser
    library absent the handler shows the success banner and the preview --
    [st.error] is not called -- and the session it leaves has the message as
    its document text, its other fields as before. *)
Theorem unavailable_message_classified_success :
  (forall document_text,
     is_success document_text = true <->
     document_text <> []
     /\ startswith document_text (lit "Error") = false
     /\ startswith document_text (lit "Unsupported") = false)
  /\ (is_success pdf_unavailable_message = true
      /\ is_success docx_unavailable_message = true)
  /\ (pdf_unavailable_message
      = lit "PDF support not available. Please install PyPDF2."
      /\ docx_unavailable_message
         = lit "DOCX support not available. Please install python-docx.")
  /\ (forall ss uploaded_file,
        import_PdfReader = None -> pdf_criteria uploaded_file ->
        exists ss',
          run (extract_button_M ss uploaded_file)
          = (Return ss',
             [entered from_pdf;
              st_success float (success_banner pdf_unavailable_message);
              st_text float pdf_unavailable_message])
          /\ session_state.document_text ss' = Some pdf_unavailable_message
          /\ session_state.insights ss' = session_state.insights ss
          /\ session_state.filename ss' = session_state.filename ss
          /\ session_state.question ss' = session_state.question ss)
  /\ (forall ss uploaded_file,
        import_DocxDocument = None ->
        ~ pdf_criteria uploaded_file -> docx_criteria uploaded_file ->
        exists ss',
          run (extract_button_M ss uploaded_file)
          = (Return ss',
             [entered from_docx;
              st_success float (success_banner docx_unavailable_message);
              st_text float docx_unavailable_message])
          /\ session_state.document_text ss' = Some docx_unavailable_message
          /\ session_state.insights ss' = session_state.insights ss
          /\ session_state.filename ss' = session_state.filename ss
          /\ session_state.question ss' = session_state.question ss).
Proof.
  split; [exact is_success_iff|].
  split; [split; reflexivity|].
  split; [split; reflexivity|].
  split.
  - intros ss uploaded_file Himport Hpdf.
    unfold run, extract_button.
    erewrite bind_run by (apply extract_text_pdf_unavailable; assumption).
    eexists. split; [reflexivity|]. repeat split.
  - intros ss uploaded_file Himport Hpdf Hdocx.
    unfold run, extract_button.
    erewrite bind_run by (apply extract_text_docx_unavailable; assumption).
    eexists. split; [reflexivity|]. repeat split.
Qed.

End Extraction.

(** *** Concrete runs of the extractors *)

Lemma extract_text_unsupported_witness :
  (type rtf_upload <> lit "application/pdf"
   /\ type rtf_upload
      <> lit "application/vnd.openxmlformats-officedocument.wordprocessingml.document"
   /\ type rtf_upload <> lit "text/plain")
  /\ (endswith (name rtf_upload) (lit ".pdf") = false
      /\ endswith (name rtf_upload) (lit ".docx") = false
      /\ endswith (name rtf_upload) (lit ".txt") = false)
  /\ run (extract_text (float := unit) None None rtf_upload)
     = (Return unsupported_message, []).
Proof.
  split; [repeat split; discriminate|].
  split; [repeat split|].
  apply (@extract_text_unsupported unit None None rtf_upload);
    solve [discriminate | reflexivity].
Defined.

Lemma extract_text_from_pdf_joins_pages_witness :
  List.map extract_text_of_page (pages three_page_pdf)
  = List.map Return [lit "  Page one."; lit "Page two."; lit "Page three. "]
  /\ run (extract_text_from_pdf (float := unit) (Some three_pages) [x25; x50; x44; x46])
     = (Return (lit "Page one." ++ NL ++ lit "Page two." ++ NL ++ lit "Page three."),
        [Enter unit from_pdf; Call_PdfReader unit [x25; x50; x44; x46]]).
Proof.
  split; [reflexivity|].
  apply (@extract_text_from_pdf_joins_pages unit (Some three_pages) three_pages
           [x25; x50; x44; x46] three_page_pdf
           [lit "  Page one."; lit "Page two."; lit "Page three. "]);
    reflexivity.
Defined.

Lemma extract_text_dispatch_order_witness :
  (pdf_criteria mislabelled_upload /\ docx_criteria mislabelled_upload)
  /\ @routed_to unit (Some three_pages) None from_pdf mislabelled_upload
  /\ @routed_to unit (Some three_pages) None from_docx docx_upload.
Proof.
  assert (Hboth : pdf_criteria mislabelled_upload /\ docx_criteria mislabelled_upload)
    by (split; [right | left]; reflexivity).
  split; [exact Hboth|]. split.
  - destruct (@extract_text_dispatch_order unit (Some three_pages) None
                mislabelled_upload) as [_ [_ [Hfirst _]]].
    exact (Hfirst Hboth).
  - destruct (@extract_text_dispatch_order unit (Some three_pages) None
                docx_upload) as [_ [_ [_ [Hdocx _]]]].
    apply Hdocx.
    + intros [H | H]; discriminate H.
    + right. reflexivity.
Defined.

Lemma unavailable_message_classified_success_witness :
  exists ss',
    run (extract_button (float := unit) None None session_state.initial
           mislabelled_upload)
    = (Return ss',
       [Enter unit from_pdf;
        st_success unit
          (check_mark ++ lit " Text extracted successfully! (49 characters)");
        st_text unit (lit "PDF support not available. Please install PyPDF2.")])
    /\ session_state.document_text ss'
       = Some (lit "PDF support not available. Please install PyPDF2.").
Proof.
  destruct (@unavailable_message_classified_success unit None None)
    as [_ [_ [_ [Hpdf _]]]].
  destruct (Hpdf session_state.initial mislabelled_upload eq_refl
              (or_intror eq_refl)) as [ss' [Hrun [Hdoc _]]].
  exists ss'. split; [exact Hrun | exact Hdoc].
Defined.

(** ** Prompt assembly and the remote call *)

(** Template facts. *)


Lemma truncate_short (document_text : str) :
  len document_text <= max_chars -> truncate document_text = document_text.
Proof.
  intros H. unfold truncate.
  destruct (max_chars <? len document_text) eqn:E; [|reflexivity].
  apply Nat.ltb_lt in E. lia.
Qed.


Lemma template_has_no_bracket :
  ~ In 91%N prompt_head /\ ~ In 91%N prompt_middle /\ ~ In 91%N prompt_tail.
Proof.
  assert (H : forall s, existsb (N.eqb 91) s = false -> ~ In 91%N s).
  { intros s Hs Hin.
    assert (E : existsb (N.eqb 91) s = true)
      by (apply existsb_exists; exists 91%N; split; [exact Hin | reflexivity]).
    congruence. }
  repeat split; apply H; reflexivity.
Qed.

Lemma split_at_elem (c : char) (x y a b : str) :
  x ++ c :: y = a ++ b ->
  (exists a2, a = x ++ c :: a2 /\ y = a2 ++ b)
  \/ (exists b1, b = b1 ++ c :: y /\ x = a ++ b1).
Proof.
  intros H. apply app_eq_app in H. destruct H as [l [[Hx Hb] | [Ha Hy]]].
  - right. exists l. split; assumption.
  - destruct l as [|c' l].
    + right. exists []. rewrite app_nil_r in Ha. simpl in Hy. subst. split; [reflexivity|].
      now rewrite app_nil_r.
    + left. injection Hy as <- ->. exists l. split; [exact Ha | reflexivity].
Qed.

(** A piece with no line break in it, followed by anything, that lies at the
    head of [a] followed by a line break, lies at the head of [a]. *)
Lemma head_before_NL (r post a rest : str) :
  ~ In 10%N r -> r ++ post = a ++ 10%N :: rest -> exists a', a = r ++ a'.
Proof.
  intros Hr H. apply app_eq_app in H. destruct H as [l [[Hx Hb] | [Ha Hy]]].
  - destruct l as [|c l].
    + exists []. now rewrite app_nil_r in *.
    + injection Hb as <- _. exfalso. apply Hr. rewrite Hx. apply in_or_app. right. now left.
  - exists l. exact Ha.
Qed.

(** Two line breaks at the end of [h ++ q]: at the end of [q], or one or
    both of them at the end of [h]. *)
Lemma two_NL_at_end (pre h q : str) :
  pre ++ [10%N; 10%N] = h ++ q ->
  (exists q', q = q' ++ [10%N; 10%N])
  \/ (q = [10%N] /\ h = pre ++ [10%N])
  \/ (q = [] /\ h = pre ++ [10%N; 10%N]).
Proof.
  intros H. apply app_eq_app in H. destruct H as [l [[Hx Hb] | [Ha Hy]]].
  - left. exists l. exact Hb.
  - destruct l as [|c1 [|c2 [|c3 l]]]; simpl in Hy.
    + left. exists []. now subst.
    + right. left. injection Hy as <- <-. split; [reflexivity | exact Ha].
    + right. right. injection Hy as <- <- <-. split; [reflexivity | exact Ha].
    + discriminate Hy.
Qed.

Lemma marker_parts : truncation_marker = [10%N; 10%N] ++ 91%N :: marker_text.
Proof. reflexivity. Qed.

Lemma marker_text_one_line : ~ In 10%N marker_text.
Proof.
  intros Hin.
  assert (E : existsb (N.eqb 10) marker_text = true)
    by (apply existsb_exists; exists 10%N; split; [exact Hin | reflexivity]).
  vm_compute in E. discriminate E.
Qed.

Lemma prompt_head_end : exists front, prompt_head = front ++ [58%N; 32%N].
Proof. apply StrFacts.endswith_app. reflexivity. Qed.

Lemma prompt_middle_parts :
  prompt_middle = 10%N :: (NL ++ lit "Document" ++ [58%N]) ++ NL.
Proof. reflexivity. Qed.

Lemma prompt_tail_parts : exists rest, prompt_tail = 10%N :: rest.
Proof. eexists. reflexivity. Qed.

Lemma last_two (x y : str) (a b c d : char) :
  x ++ [a; b] = y ++ [c; d] -> a = c /\ b = d.
Proof.
  intros H.
  change (x ++ [a; b]) with (x ++ [a] ++ [b]) in H.
  change (y ++ [c; d]) with (y ++ [c] ++ [d]) in H.
  rewrite !app_assoc in H.
  apply app_inj_tail in H. destruct H as [H ->].
  apply app_inj_tail in H. destruct H as [_ ->]. split; reflexivity.
Qed.

Lemma marker_in_short_prompt (document_text question : str) :
  occurs truncation_marker
    (prompt_head ++ question ++ prompt_middle ++ document_text ++ prompt_tail)
  <-> occurs truncation_marker question
      \/ occurs truncation_marker (NL ++ document_text).
Proof.
  split.
  - intros [pre [post H]].
    destruct template_has_no_bracket as [Hhead [Hmiddle Htail]].
    destruct prompt_head_end as [front Hfront].
    destruct prompt_tail_parts as [tail_rest Htail_parts].
    assert (H' : (pre ++ [10%N; 10%N]) ++ 91%N :: (marker_text ++ post)
                 = prompt_head ++ question ++ prompt_middle
                   ++ document_text ++ prompt_tail)
      by (rewrite H, marker_parts, <- !app_assoc; reflexivity).
    clear H.
    (* the bracket is not in the head of the template *)
    destruct (@split_at_elem _ _ _ _ _ H') as [[a2 [Ha _]] | [b1 [Hb Hpre]]].
    { exfalso. apply Hhead. rewrite Ha. apply in_or_app. right. now left. }
    destruct (@split_at_elem _ _ _ _ _ (eq_sym Hb)) as [[a2 [Hq Hafter]] | [c1 [Hc Hb1]]].
    + (* the bracket is in the question *)
      left. rewrite prompt_middle_parts in Hafter.
      destruct (@head_before_NL marker_text _ _ _ marker_text_one_line Hafter) as [a2' ->].
      destruct (@two_NL_at_end _ _ _ Hpre) as [[q' ->] | [[_ Hh] | [_ Hh]]].
      * exists q', a2'. rewrite Hq, <- !app_assoc. reflexivity.
      * exfalso. rewrite Hfront in Hh.
        change (front ++ [58%N; 32%N]) with (front ++ [58%N] ++ [32%N]) in Hh.
        rewrite app_assoc in Hh. apply app_inj_tail in Hh. destruct Hh as [_ Hh].
        discriminate Hh.
      * exfalso. rewrite Hfront in Hh. apply last_two in Hh.
        destruct Hh as [Hh _]. discriminate Hh.
    + (* the bracket is not in the middle of the template *)
      destruct (@split_at_elem _ _ _ _ _ (eq_sym Hc)) as [[a2 [Ha _]] | [e1 [He Hc1]]].
      { exfalso. apply Hmiddle. rewrite Ha. apply in_or_app. right. now left. }
      destruct (@split_at_elem _ _ _ _ _ (eq_sym He)) as [[a2 [Hd Hafter]] | [f1 [Hf _]]].
      2:{ exfalso. apply Htail. rewrite Hf. apply in_or_app. right. now left. }
      (* the bracket is in the document text *)
      right. rewrite Htail_parts in Hafter.
      destruct (@head_before_NL marker_text _ _ _ marker_text_one_line Hafter) as [a2' ->].
      rewrite Hb1, Hc1, !app_assoc in Hpre.
      destruct (@two_NL_at_end _ _ _ Hpre) as [[q' ->] | [[-> _] | [_ Hh]]].
      * exists (NL ++ q'), a2'. rewrite Hd, <- !app_assoc. reflexivity.
      * exists [], a2'. rewrite Hd. reflexivity.
      * exfalso. rewrite prompt_middle_parts in Hh.
        change (10%N :: (NL ++ lit "Document" ++ [58%N]) ++ NL)
          with ((NL ++ NL ++ lit "Document") ++ [58%N; 10%N]) in Hh.
        rewrite app_assoc in Hh. apply eq_sym, last_two in Hh.
        destruct Hh as [Hh _]. discriminate Hh.
  - intros [[pre [post ->]] | [pre [post H]]].
    + exists (prompt_head ++ pre),
        (post ++ prompt_middle ++ document_text ++ prompt_tail).
      rewrite <- !app_assoc. reflexivity.
    + exists (prompt_head ++ question ++ (NL ++ NL ++ lit "Document:") ++ pre),
        (post ++ prompt_tail).
      transitivity (prompt_head ++ question ++ (NL ++ NL ++ lit "Document:")
                    ++ (NL ++ document_text) ++ prompt_tail).
      { unfold prompt_middle. rewrite <- !app_assoc. reflexivity. }
      rewrite H, <- !app_assoc. reflexivity.
Qed.

(** C2, as amended: for a document text of at most 12,000 characters
    (12,000 included) the prompt is the template around the question and the
    whole text, with nothing appended to the text; the truncation marker
    occurs in the prompt exactly when the question contains it, or the
    document text, taken with the line break that precedes it in the
    template, contains it. *)
Theorem short_prompt_verbatim (document_text question : str) :
  len document_text <= max_chars ->
  build_prompt document_text question
  = prompt_head ++ question ++ prompt_middle ++ document_text ++ prompt_tail
  /\ occurs document_text (build_prompt document_text question)
  /\ (occurs truncation_marker (build_prompt document_text question)
      <-> occurs truncation_marker question
          \/ occurs truncation_marker (NL ++ document_text)).
Proof.
  intros Hshort.
  assert (Hprompt : build_prompt document_text question
                    = prompt_head ++ question ++ prompt_middle
                      ++ document_text ++ prompt_tail).
  { unfold build_prompt. now rewrite truncate_short by exact Hshort. }
  split; [exact Hprompt|]. rewrite Hprompt. split.
  - exists (prompt_head ++ question ++ prompt_middle), prompt_tail.
    now rewrite <- !app_assoc.
  - apply marker_in_short_prompt.
Qed.

Section Insights.

Variable float : Type.
Variable ChatCompletion_create : str -> Request float -> result Response.

#[local] Abbreviation generate_insights_M :=
  (@generate_insights float ChatCompletion_create).

(** One run of [generate_insights], path by path: one call of the service,
    carrying the prompt, and a string back whatever the service does. *)
Lemma generate_insights_run
    (document_text question api_key model_name : str) (temp : float) :
  run (generate_insights_M document_text question api_key model_name temp)
  = (Return
       match ChatCompletion_create api_key
               (request_of (build_prompt document_text question) model_name temp) with
       | Return response =>
         match choices response with
         | first_choice :: _ => message_content (message first_choice)
         | [] => Some (generic_failure_message
                         (Exc IndexError (lit "list index out of range")))
         end
       | Raise e => Some (message_for e)
       end,
     [Call_ChatCompletion_create api_key
        (request_of (build_prompt document_text question) model_name temp)]).
Proof.
  unfold run, generate_insights, try_except. fold (request_of (build_prompt document_text question) model_name temp).
  rewrite bind_call. cbn [app].
  destruct (ChatCompletion_create _ _) as [response|e].
  - unfold index. destruct (choices response) as [|c cs]; reflexivity.
  - unfold message_for, kind_of.
    destruct e as [[] msg]; reflexivity.
Qed.



Lemma messages_differ (e1 e2 : exception) :
  kind_of e1 <> kind_of e2 -> message_for e1 <> message_for e2.
Proof.
  unfold message_for. intros Hkind Heq.
  apply (f_equal (firstn 12)) in Heq.
  destruct (kind_of e1), (kind_of e2); try congruence;
    vm_compute in Heq; discriminate Heq.
Qed.

(** C5: when the service raises, the message returned is the one of the
    exception's kind; for an authentication failure that is the
    invalid-API-key message, which is not the generic message nor another
    kind's; exceptions of two different kinds never get the same message. *)
Theorem error_kinds_not_collapsed
    (document_text question api_key model_name : str) (temp : float)
    (e : exception) :
  ChatCompletion_create api_key
    (request_of (build_prompt document_text question) model_name temp) = Raise e ->
  fst (run (generate_insights_M document_text question api_key model_name temp))
  = Return (Some (message_for e))
  /\ (exc_class e = AuthenticationError ->
      message_for e = invalid_api_key_message
      /\ invalid_api_key_message
         = cross_mark ++ lit " Invalid API key. Please check your OpenAI API key and try again."
      /\ invalid_api_key_message <> rate_limit_message
      /\ forall e', invalid_api_key_message <> invalid_request_message e'
                    /\ invalid_api_key_message <> generic_failure_message e')
  /\ (exc_class e = RateLimitError -> message_for e = rate_limit_message)
  /\ (exc_class e = InvalidRequestError -> message_for e = invalid_request_message e)
  /\ (kind_of e = other_failure -> message_for e = generic_failure_message e)
  /\ (forall e', kind_of e' <> kind_of e -> message_for e' <> message_for e).
Proof.
  intros Hraise. rewrite generate_insights_run, Hraise. cbn [fst].
  split; [reflexivity|].
  split.
  { intros Hclass. unfold message_for, kind_of. rewrite Hclass.
    split; [reflexivity|]. split; [reflexivity|].
    split; [intros H; vm_compute in H; discriminate H|].
    intros e'; split; intros H; apply (f_equal (firstn 12)) in H;
      vm_compute in H; discriminate H. }
  split; [intros Hclass; unfold message_for, kind_of; now rewrite Hclass|].
  split; [intros Hclass; unfold message_for, kind_of; now rewrite Hclass|].
  split; [intros Hkind; unfold message_for; now rewrite Hkind|].
  intros e'. apply messages_differ.
Qed.

End Insights.


(** C2 as stated fails: with the marker itself as document text (40
    characters, so not truncated) the prompt contains the marker. *)
Lemma short_prompt_may_contain_marker :
  ~ (forall document_text question : str,
       len document_text <= max_chars ->
       occurs document_text (build_prompt document_text question)
       /\ ~ occurs truncation_marker (build_prompt document_text question)).
Proof.
  intros H.
  destruct (H truncation_marker (lit "What is the conclusion?")) as [_ Hno].
  - vm_compute. lia.
  - apply Hno. apply StrFacts.contains_occurs. vm_compute. reflexivity.
Qed.

(** The marker also arises across the template's line break: a text of 39
    characters, a line break and the bracketed words, does not contain the
    marker, its prompt does; a text with another bracket brings none. *)
Example marker_across_template :
  contains (NL ++ 91%N :: marker_text) truncation_marker = false
  /\ contains (build_prompt (NL ++ 91%N :: marker_text) sample_question)
       truncation_marker = true
  /\ contains (build_prompt (lit "See [1].") sample_question)
       truncation_marker = false.
Proof. repeat split; vm_compute; reflexivity. Qed.

(** ** The exported reports *)

Lemma occurs_here (needle rest : str) : occurs needle (needle ++ rest).
Proof. now exists [], rest. Qed.

Lemma occurs_later (needle skipped rest : str) :
  occurs needle rest -> occurs needle (skipped ++ rest).
Proof.
  intros [pre [post ->]]. exists (skipped ++ pre), post. now rewrite <- app_assoc.
Qed.

Ltac find_field :=
  first [ apply occurs_here | apply occurs_later; find_field ].

Ltac find_part :=
  first [ exists []; eexists; cbn [app]; rewrite <- ?app_assoc; reflexivity
        | apply occurs_later; find_part ].

Lemma endswith_refl (s : str) : endswith s s = true.
Proof. apply StrFacts.endswith_app. now exists []. Qed.

Lemma endswith_later (skipped rest suffix : str) :
  endswith rest suffix = true -> endswith (skipped ++ rest) suffix = true.
Proof.
  intros H. apply StrFacts.endswith_app in H. destruct H as [front ->].
  apply StrFacts.endswith_app. exists (skipped ++ front). apply app_assoc.
Qed.

Ltac find_ending :=
  first [ apply endswith_refl | apply endswith_later; find_ending ].

(** C8, as amended: the markdown report carries the document name, the
    question, the timestamp and the full insight text under markdown
    headers (it opens with the title header); the plain-text report carries
    these and, as its last part, the first 2000 characters of the document
    text; the markdown report does not depend on the document text, and
    ends with the "Generated by" footer instead. *)
Theorem markdown_report_fields
    (filename question insights document_text now : str) :
  exists md txt : str,
    markdown_text (session_with filename question insights document_text) now
    = Return md
    /\ result_text (session_with filename question insights document_text) now
       = Return txt
    /\ (startswith md (lit "# Document Insights" ++ NL) = true
        /\ occurs (lit "## Insights") md)
    /\ (occurs (lit "**Document:** " ++ filename) md
        /\ occurs (lit "**Question:** " ++ question) md
        /\ occurs (lit "**Generated:** " ++ now) md
        /\ occurs (lit "## Insights" ++ NL ++ NL ++ insights ++ NL) md)
    /\ (occurs filename md /\ occurs question md /\ occurs now md
        /\ occurs insights md)
    /\ (occurs filename txt /\ occurs question txt /\ occurs now txt
        /\ occurs insights txt /\ occurs (slice_to document_text 2000) txt)
    /\ endswith txt (lit "Document Text (excerpt):" ++ NL
                     ++ slice_to document_text 2000 ++ lit "..." ++ NL) = true
    /\ endswith md (lit "*Generated by Document Insights Generator*" ++ NL) = true
    /\ (forall other_text : str,
          markdown_text (session_with filename question insights other_text) now
          = Return md).
Proof.
  eexists. eexists.
  split; [reflexivity|]. split; [reflexivity|].
  cbn [fmt session_with session_state.filename session_state.insights].
  split; [split; [reflexivity | find_field]|].
  split; [repeat split; find_part|].
  repeat split; try find_field; try find_ending.
Qed.

(** C8 as stated fails: the markdown report of a session whose document
    text is "ZEBRA" shows no excerpt of that text (the plain-text report
    does, see [plain_text_report_has_excerpt]). *)
Lemma markdown_report_has_no_excerpt :
  ~ (forall filename question insights document_text now : str,
       exists md : str,
         markdown_text (session_with filename question insights document_text) now
         = Return md
         /\ occurs filename md /\ occurs question md /\ occurs now md
         /\ occurs insights md /\ occurs (slice_to document_text 2000) md).
Proof.
  intros H.
  destruct (H (lit "notes.txt") (lit "Why?") (lit "Because.") (lit "ZEBRA")
              (lit "2024-05-01 10:00:00"))
    as [md [Hmd [_ [_ [_ [_ Hexcerpt]]]]]].
  injection Hmd as <-.
  apply StrFacts.contains_occurs in Hexcerpt.
  vm_compute in Hexcerpt. discriminate Hexcerpt.
Qed.

Example plain_text_report_has_excerpt :
  exists txt,
    result_text sample_session (lit "2024-05-01 10:00:00") = Return txt
    /\ contains txt (lit "ZEBRA") = true.
Proof. eexists. split; reflexivity. Qed.

(** ** Concrete runs of the prompt builder and of the error mapping *)


Lemma short_prompt_verbatim_witness :
  N.of_nat (len full_text) = 12000%N
  /\ build_prompt full_text sample_question
     = prompt_head ++ sample_question ++ prompt_middle ++ full_text ++ prompt_tail
  /\ ~ occurs truncation_marker (build_prompt full_text sample_question).
Proof.
  assert (Hlen : len full_text = max_chars)
    by (unfold full_text, len; apply repeat_length).
  split; [rewrite Hlen; reflexivity|].
  destruct (@short_prompt_verbatim full_text sample_question) as [Hprompt [_ Hiff]].
  - rewrite Hlen. apply le_n.
  - split; [exact Hprompt|]. intros Hocc. apply Hiff in Hocc.
    destruct Hocc as [Hocc | Hocc]; apply StrFacts.contains_occurs in Hocc;
      vm_compute in Hocc; discriminate Hocc.
Defined.

Lemma error_kinds_not_collapsed_witness :
  rejecting (lit "sk-wrong")
    (request_of (build_prompt (lit "Some text.") sample_question) (lit "gpt-4") tt)
  = Raise rejected_key
  /\ fst (run (generate_insights rejecting (lit "Some text.") sample_question
                 (lit "sk-wrong") (lit "gpt-4") tt))
     = Return (Some invalid_api_key_message).
Proof.
  split; [reflexivity|].
  destruct (@error_kinds_not_collapsed unit rejecting (lit "Some text.")
              sample_question (lit "sk-wrong") (lit "gpt-4") tt rejected_key
              eq_refl)
    as [Hreturn _].
  exact Hreturn.
Defined.

(** * The page *)

(** ** The log only grows *)

Section Frame.

Variable float : Type.

#[local] Abbreviation M := (M float).

Lemma framed_at {A : Type} (m : M A) (r : result A) (trace : list (event float)) :
  framed m -> run m = (r, trace) -> forall log, m log = (r, log ++ trace).
Proof. unfold run. intros Hm Hrun log. rewrite Hm, Hrun. reflexivity. Qed.

Lemma framed_ret {A : Type} (a : A) : framed (ret (float := float) a).
Proof. intros log. unfold ret. simpl. now rewrite app_nil_r. Qed.

Lemma framed_raise {A : Type} (e : exception) : framed (raise (float := float) (A := A) e).
Proof. intros log. unfold raise. simpl. now rewrite app_nil_r. Qed.

Lemma framed_lift {A : Type} (r : result A) : framed (lift (float := float) r).
Proof. intros log. unfold lift. simpl. now rewrite app_nil_r. Qed.

Lemma framed_emit (ev : event float) : framed (emit ev).
Proof. intros log. reflexivity. Qed.

Lemma framed_call {A : Type} (ev : event float) (r : result A) : framed (call ev r).
Proof. intros log. reflexivity. Qed.

Lemma framed_bind {A B : Type} (m : M A) (k : A -> M B) :
  framed m -> (forall a, framed (k a)) -> framed (bind m k).
Proof.
  intros Hm Hk log. unfold bind. rewrite (Hm log).
  destruct (m []) as [[a|e] trace]; simpl.
  - rewrite (Hk a (log ++ trace)), (Hk a trace). simpl. now rewrite app_assoc.
  - reflexivity.
Qed.

Lemma framed_handle {A : Type} (handlers : list (handler float A)) (e : exception) :
  Forall (fun h => forall e, framed (snd h e)) handlers -> framed (handle handlers e).
Proof.
  induction 1 as [|[c h] rest Hh _ IH]; simpl.
  - apply framed_raise.
  - destruct (isinstance e c); [apply Hh | exact IH].
Qed.

Lemma framed_try_except {A : Type} (body : M A) (handlers : list (handler float A)) :
  framed body -> Forall (fun h => forall e, framed (snd h e)) handlers ->
  framed (try_except body handlers).
Proof.
  intros Hb Hh log. unfold try_except. rewrite (Hb log).
  destruct (body []) as [[a|e] trace]; simpl; [reflexivity|].
  rewrite (framed_handle e Hh (log ++ trace)), (framed_handle e Hh trace).
  simpl. now rewrite app_assoc.
Qed.

Lemma framed_for_each {A S : Type} (xs : list A) (body : S -> A -> M S) :
  (forall acc x, framed (body acc x)) -> forall acc, framed (for_each xs body acc).
Proof.
  intros Hbody. induction xs as [|x xs IH]; intros acc; simpl.
  - apply framed_ret.
  - apply framed_bind; [apply Hbody | exact IH].
Qed.

End Frame.

Ltac framed_step :=
  match goal with
  | |- framed (bind _ _) => apply framed_bind; [|intros]
  | |- framed (ret _) => apply framed_ret
  | |- framed (raise _) => apply framed_raise
  | |- framed (lift _) => apply framed_lift
  | |- framed (emit _) => apply framed_emit
  | |- framed (call _ _) => apply framed_call
  | |- framed (try_except _ _) => apply framed_try_except
  | |- framed (for_each _ _ _) => apply framed_for_each; intros
  | |- Forall _ [] => constructor
  | |- Forall _ (_ :: _) => constructor; [cbn [snd]; intros|]
  | |- framed (if ?c then _ else _) => destruct c
  | |- framed (match ?x with _ => _ end) => destruct x
  end.

Ltac framed_auto := repeat framed_step.

Section PageFacts.

Variable float : Type.
Variable import_PdfReader : option (bytes -> result Pdf).
Variable import_DocxDocument : option (bytes -> result Docx).
Variable ChatCompletion_create : str -> Request float -> result Response.
Variable kilobytes : nat -> str.

#[local] Abbreviation extract_text_M := (@extract_text float import_PdfReader import_DocxDocument).
#[local] Abbreviation extract_button_M := (@extract_button float import_PdfReader import_DocxDocument).
#[local] Abbreviation generate_insights_M := (@generate_insights float ChatCompletion_create).

Lemma framed_extract_text (uploaded_file : UploadedFile) :
  framed (extract_text_M uploaded_file).
Proof.
  unfold extract_text, extract_text_from_pdf, extract_text_from_docx,
    extract_text_from_txt, PdfReader, DocxDocument.
  framed_auto.
Qed.

Lemma framed_extract_button (ss : session_state.t) (uploaded_file : UploadedFile) :
  framed (extract_button_M ss uploaded_file).
Proof.
  unfold extract_button. apply framed_bind; [apply framed_extract_text|].
  intros. framed_auto.
Qed.

Lemma framed_generate_insights
    (document_text question api_key model_name : str) (temp : float) :
  framed (generate_insights_M document_text question api_key model_name temp).
Proof. unfold generate_insights, index. framed_auto. Qed.

(** ** Extraction: failures and the button *)

#[local] Abbreviation from_pdf_M := (@extract_text_from_pdf float import_PdfReader).
#[local] Abbreviation from_docx_M := (@extract_text_from_docx float import_DocxDocument).
#[local] Abbreviation entered := (Enter float).

Lemma extract_text_run (uploaded_file : UploadedFile) :
  exists text trace,
    run (extract_text_M uploaded_file) = (Return text, trace)
    /\ List.length trace <= 2
    /\ forallb (@parser_event float) trace = true.
Proof.
  unfold extract_text.
  destruct (Str.eqb (type uploaded_file) (lit "application/pdf")
            || endswith (name uploaded_file) (lit ".pdf")).
  { destruct (extract_text_from_pdf_log float import_PdfReader
                (read uploaded_file)) as [out [H | H]];
      exists out; eexists; (split; [exact H|]); (split; [simpl; lia | reflexivity]). }
  destruct (Str.eqb (type uploaded_file)
              (lit "application/vnd.openxmlformats-officedocument.wordprocessingml.document")
            || endswith (name uploaded_file) (lit ".docx")).
  { destruct (extract_text_from_docx_log float import_DocxDocument
                (read uploaded_file)) as [out [H | H]];
      exists out; eexists; (split; [exact H|]); (split; [simpl; lia | reflexivity]). }
  destruct (Str.eqb (type uploaded_file) (lit "text/plain")
            || endswith (name uploaded_file) (lit ".txt")).
  { destruct (Utf8Facts.decode_ignore_total (read uploaded_file)) as [d [Hd _]].
    exists (strip d); eexists.
    split; [exact (extract_text_from_txt_run float _ Hd)|].
    split; [simpl; lia | reflexivity]. }
  exists unsupported_message, []. split; [reflexivity|].
  split; [simpl; lia | reflexivity].
Qed.

(** X1: whatever the file and whatever the parser libraries do, the
    dispatcher returns a string and never raises; its log is empty (then the
    string is the unsupported-format message), or the entry into one
    extractor, followed for PDF and DOCX by at most one call of that
    extractor's own parser on the file's bytes. *)
Theorem extract_text_always_returns (uploaded_file : UploadedFile) :
  exists text trace,
    run (extract_text_M uploaded_file) = (Return text, trace)
    /\ (trace = []
        \/ trace = [entered from_pdf]
        \/ trace = [entered from_pdf; Call_PdfReader float (read uploaded_file)]
        \/ trace = [entered from_docx]
        \/ trace = [entered from_docx;
                    Call_DocxDocument float (read uploaded_file)]
        \/ trace = [entered from_txt])
    /\ (trace = [] -> text = unsupported_message).
Proof.
  unfold extract_text.
  destruct (Str.eqb (type uploaded_file) (lit "application/pdf")
            || endswith (name uploaded_file) (lit ".pdf")).
  { destruct (extract_text_from_pdf_log float import_PdfReader
                (read uploaded_file)) as [out [H | H]];
      exists out; eexists; (split; [exact H|]); (split; [tauto | discriminate]). }
  destruct (Str.eqb (type uploaded_file)
              (lit "application/vnd.openxmlformats-officedocument.wordprocessingml.document")
            || endswith (name uploaded_file) (lit ".docx")).
  { destruct (extract_text_from_docx_log float import_DocxDocument
                (read uploaded_file)) as [out [H | H]];
      exists out; eexists; (split; [exact H|]); (split; [tauto | discriminate]). }
  destruct (Str.eqb (type uploaded_file) (lit "text/plain")
            || endswith (name uploaded_file) (lit ".txt")).
  { destruct (Utf8Facts.decode_ignore_total (read uploaded_file)) as [d [Hd _]].
    exists (strip d); eexists.
    split; [exact (extract_text_from_txt_run float _ Hd)|].
    split; [tauto | discriminate]. }
  exists unsupported_message, []. split; [reflexivity|]. split; [tauto | reflexivity].
Qed.

Lemma for_each_pages_raise (good : list PdfPage) (texts : list str)
    (bad : PdfPage) (rest : list PdfPage) (e : exception) :
  List.map extract_text_of_page good = List.map Return texts ->
  extract_text_of_page bad = Raise e ->
  forall (acc : str) (log : list (event float)),
    for_each (good ++ bad :: rest)
      (fun text page =>
         bind (lift (extract_text_of_page page))
              (fun page_text => ret (text ++ page_text ++ NL)))
      acc log
    = (Raise e, log).
Proof.
  intros Hgood Hbad. revert texts Hgood.
  induction good as [|p ps IH]; intros [|t ts] H acc log; try discriminate H.
  - cbn [app for_each].
    erewrite bind_run by (rewrite bind_lift, Hbad; reflexivity). reflexivity.
  - simpl in H. injection H as Hp Hps. cbn [app for_each].
    erewrite bind_run by (rewrite bind_lift, Hp; reflexivity).
    cbv beta iota. eapply IH; eassumption.
Qed.

(** X2: when PyPDF2 rejects the bytes, or some page's [extract_text] raises
    after earlier pages were read, [extract_text_from_pdf] returns "Error
    extracting PDF: " followed by the exception's text -- the texts already
    read are dropped -- and the UI takes that string for a failure. *)
Theorem extract_text_from_pdf_failure
    (reader : bytes -> result Pdf) (file_bytes : bytes) (e : exception) :
  import_PdfReader = Some reader ->
  (reader file_bytes = Raise e
   \/ exists pdf good bad rest texts,
        reader file_bytes = Return pdf
        /\ pages pdf = good ++ bad :: rest
        /\ List.map extract_text_of_page good = List.map Return texts
        /\ extract_text_of_page bad = Raise e) ->
  run (from_pdf_M file_bytes)
  = (Return (lit "Error extracting PDF: " ++ exc_str e),
     [entered from_pdf; Call_PdfReader float file_bytes])
  /\ is_success (lit "Error extracting PDF: " ++ exc_str e) = false.
Proof.
  intros Himport Hfail. split; [|reflexivity].
  unfold run, extract_text_from_pdf, PDF_AVAILABLE, PdfReader.
  rewrite Himport, bind_emit. cbn [app negb].
  unfold try_except. rewrite bind_call.
  destruct Hfail as [Hreader | [pdf [good [bad [rest [texts [Hreader [Hpages [Hgood Hbad]]]]]]]]];
    rewrite Hreader; cbn [app]; [reflexivity|].
  rewrite Hpages.
  erewrite bind_run by (eapply for_each_pages_raise; eassumption).
  reflexivity.
Qed.

(** X3: with python-docx imported, [extract_text_from_docx] returns the
    paragraphs' texts joined by newlines, in document order, stripped; when
    the library rejects the bytes it returns "Error extracting DOCX: "
    followed by the exception's text, which the UI takes for a failure. *)
Theorem extract_text_from_docx_outcome
    (reader : bytes -> result Docx) (file_bytes : bytes) :
  import_DocxDocument = Some reader ->
  run (from_docx_M file_bytes)
  = (Return match reader file_bytes with
            | Return doc => strip (join NL (List.map text (paragraphs doc)))
            | Raise e => lit "Error extracting DOCX: " ++ exc_str e
            end,
     [entered from_docx; Call_DocxDocument float file_bytes])
  /\ (forall e, is_success (lit "Error extracting DOCX: " ++ exc_str e) = false).
Proof.
  intros Himport. split; [|reflexivity].
  unfold run, extract_text_from_docx, DOCX_AVAILABLE, DocxDocument.
  rewrite Himport, bind_emit. cbn [app negb].
  unfold try_except. rewrite bind_call.
  destruct (reader file_bytes) as [doc|e]; reflexivity.
Qed.

Lemma extract_button_run (ss : session_state.t) (uploaded_file : UploadedFile)
    (text : str) (trace : list (event float)) :
  run (extract_text_M uploaded_file) = (Return text, trace) ->
  run (extract_button_M ss uploaded_file)
  = (Return (session_state.set_document_text ss (Some text)),
     trace ++ shown_for float text).
Proof.
  intros Hrun. unfold run, extract_button, shown_for.
  erewrite bind_run by exact Hrun. cbv beta iota.
  destruct (is_success text); rewrite ?bind_emit; unfold ret;
    rewrite <- ?app_assoc; reflexivity.
Qed.

(** X4: the "Extract Text" handler never raises; the session it leaves has
    whatever [extract_text] returned as its document text and its other
    fields as before; it shows either the success banner with a preview --
    the whole text up to 1000 characters, else its first 1000 characters and
    "..." -- or one [st.error] with the text, never both. *)
Theorem extract_button_outcome (ss : session_state.t) (uploaded_file : UploadedFile) :
  exists text trace ss',
    run (extract_text_M uploaded_file) = (Return text, trace)
    /\ run (extract_button_M ss uploaded_file)
       = (Return ss',
          trace ++ (if is_success text then
                      [st_success float
                         (check_mark ++ lit " Text extracted successfully! ("
                          ++ Str.of_nat (len text) ++ lit " characters)");
                       st_text float (slice_to text 1000
                                      ++ (if (1000 <? len text)%nat then lit "..."
                                          else []))]
                    else [st_error float text]))
    /\ (session_state.document_text ss' = Some text
        /\ session_state.insights ss' = session_state.insights ss
        /\ session_state.filename ss' = session_state.filename ss
        /\ session_state.question ss' = session_state.question ss)
    /\ ((len text <= 1000)%nat ->
        slice_to text 1000 ++ (if (1000 <? len text)%nat then lit "..." else [])
        = text)
    /\ (len (slice_to text 1000
             ++ (if (1000 <? len text)%nat then lit "..." else [])) <= 1003)%nat.
Proof.
  destruct (extract_text_run uploaded_file) as [text [trace [Hrun _]]].
  exists text, trace. eexists. split; [exact Hrun|].
  split; [apply extract_button_run; exact Hrun|].
  split; [repeat split|]. split.
  - intros Hlen. apply Nat.ltb_ge in Hlen. rewrite Hlen, app_nil_r.
    apply Nat.ltb_ge in Hlen. unfold slice_to. now apply firstn_all2.
  - unfold len, slice_to. rewrite length_app, length_firstn.
    destruct (1000 <? List.length text)%nat;
      [change (List.length (lit "...")) with 3
      | change (List.length (@nil char)) with 0]; lia.
Qed.

(** X5: a plain-text file whose content, once stripped, starts with "Error"
    or with "Unsupported" is extracted without any failure, yet the handler
    reports it with [st.error] (no banner, no preview); the session it
    leaves has the text as its document text all the same, its other fields
    as before. *)
Theorem text_starting_with_Error_is_reported_as_error
    (ss : session_state.t) (uploaded_file : UploadedFile) (decoded : str) :
  ~ pdf_criteria uploaded_file -> ~ docx_criteria uploaded_file ->
  txt_criteria uploaded_file ->
  Utf8.decode ignore (read uploaded_file) = Return decoded ->
  startswith (strip decoded) (lit "Error") = true
  \/ startswith (strip decoded) (lit "Unsupported") = true ->
  exists ss',
    run (extract_button_M ss uploaded_file)
    = (Return ss', [entered from_txt; st_error float (strip decoded)])
    /\ session_state.document_text ss' = Some (strip decoded)
    /\ session_state.insights ss' = session_state.insights ss
    /\ session_state.filename ss' = session_state.filename ss
    /\ session_state.question ss' = session_state.question ss.
Proof.
  intros Hpdf Hdocx Htxt Hdecode Hprefix.
  assert (Hrun : run (extract_text_M uploaded_file)
                 = (Return (strip decoded), [entered from_txt])).
  { unfold run, extract_text.
    rewrite criteria_test_false by exact Hpdf.
    rewrite criteria_test_false by exact Hdocx.
    apply criteria_test in Htxt. rewrite Htxt.
    exact (extract_text_from_txt_run float _ Hdecode). }
  erewrite extract_button_run by exact Hrun. unfold shown_for.
  assert (Hfail : is_success (strip decoded) = false).
  { unfold is_success. destruct Hprefix as [-> | ->]; simpl;
      [now rewrite andb_false_r | now rewrite andb_false_r]. }
  rewrite Hfail. eexists. split; [reflexivity|]. repeat split.
Qed.

(** ** The three sections of the page *)

#[local] Abbreviation upload_section :=
  (@Page.upload_section float import_PdfReader import_DocxDocument kilobytes).
#[local] Abbreviation question_section :=
  (@Page.question_section float ChatCompletion_create).
#[local] Abbreviation insights_section := (@Page.insights_section float).
#[local] Abbreviation script_run :=
  (@Page.script_run float import_PdfReader import_DocxDocument
     ChatCompletion_create kilobytes).
#[local] Abbreviation reachable :=
  (@Page.reachable float import_PdfReader import_DocxDocument
     ChatCompletion_create kilobytes).
#[local] Abbreviation no_service_call :=
  (fun trace : list (event float) => existsb (@service_call float) trace = false).

Lemma no_service_call_app (t1 t2 : list (event float)) :
  no_service_call t1 -> no_service_call t2 -> no_service_call (t1 ++ t2).
Proof. intros H1 H2. cbv beta in *. now rewrite existsb_app, H1, H2. Qed.

Lemma parser_events_no_service_call (trace : list (event float)) :
  forallb (@parser_event float) trace = true -> no_service_call trace.
Proof.
  cbv beta. induction trace as [|ev trace IH]; simpl; [reflexivity|].
  intros H. apply andb_true_iff in H as [Hev Ht].
  rewrite (IH Ht). destruct ev; simpl in *; congruence.
Qed.

Lemma shown_for_no_service_call (text : str) : no_service_call (shown_for float text).
Proof. unfold shown_for. destruct (is_success text); reflexivity. Qed.

(** The upload section: it never raises, calls no remote service, keeps the
    insight and the question, and sets the file name of the file at hand. *)
Lemma upload_section_run (ss : session_state.t)
    (file : option UploadedFile) (clicked : bool) :
  exists ss1 trace,
    run (upload_section ss file clicked) = (Return ss1, trace)
    /\ no_service_call trace
    /\ session_state.insights ss1 = session_state.insights ss
    /\ session_state.question ss1 = session_state.question ss
    /\ match file with
       | None => ss1 = ss /\ trace = []
       | Some f =>
         session_state.filename ss1 = Some (name f)
         /\ if clicked then
              exists text extraction,
                run (extract_text_M f) = (Return text, extraction)
                /\ session_state.document_text ss1 = Some text
                /\ exists banner, trace = banner :: extraction ++ shown_for float text
            else session_state.document_text ss1 = session_state.document_text ss
       end.
Proof.
  destruct file as [f|]; [|exists ss, []; repeat split].
  unfold run, Page.upload_section. rewrite bind_emit. cbn [app].
  destruct clicked.
  - destruct (extract_text_run f) as [text [extraction [Hrun [_ Hparser]]]].
    pose proof (@extract_button_run (set_filename ss (Some (name f))) f text
                  extraction Hrun) as Hbutton.
    rewrite (framed_at (framed_extract_button _ f) Hbutton).
    eexists; eexists. split; [reflexivity|].
    split.
    { apply (@no_service_call_app [_] _); [reflexivity|].
      apply no_service_call_app;
        [now apply parser_events_no_service_call | apply shown_for_no_service_call]. }
    repeat split. exists text, extraction. repeat split; [exact Hrun|].
    eexists. reflexivity.
  - eexists; eexists. split; [reflexivity|]. repeat split.
Qed.

(** The question section from any log: what a click does. *)
Lemma question_section_at (ss : session_state.t)
    (key question model : str) (temp : float) (clicked : bool)
    (log : list (event float)) :
  exists ss2 trace,
    question_section ss key question model temp clicked log
    = (Return ss2, log ++ trace)
    /\ session_state.document_text ss2 = session_state.document_text ss
    /\ session_state.filename ss2 = session_state.filename ss
    /\ ((ss2 = ss /\ no_service_call trace)
        \/ (exists document_text insight,
              session_state.document_text ss = Some document_text
              /\ clicked = true /\ key <> [] /\ question <> []
              /\ fst (run (generate_insights_M document_text question key model temp))
                 = Return insight
              /\ ss2 = set_question (set_insights ss insight) (Some question)
              /\ trace = [Call_ChatCompletion_create key
                            (request_of (build_prompt document_text question)
                               model temp)])).
Proof.
  unfold Page.question_section.
  destruct (session_state.document_text ss) as [[|c document_text]|] eqn:Hdoc;
    cbn [truthy];
    try (exists ss, []; rewrite app_nil_r; repeat split; try exact Hdoc;
         left; split; reflexivity).
  destruct clicked;
    [|exists ss, []; rewrite app_nil_r; repeat split; try exact Hdoc;
      left; split; reflexivity].
  destruct key as [|k key]; cbn [len List.length Nat.eqb].
  { eexists; eexists. rewrite bind_emit. unfold ret.
    split; [reflexivity|]. repeat split; try exact Hdoc. left. split; reflexivity. }
  destruct question as [|q question]; cbn [len List.length Nat.eqb].
  { eexists; eexists. rewrite bind_emit. unfold ret.
    split; [reflexivity|]. repeat split; try exact Hdoc. left. split; reflexivity. }
  pose proof (generate_insights_run ChatCompletion_create (c :: document_text)
                (q :: question) (k :: key) model temp) as Hrun.
  erewrite bind_run
    by (apply (framed_at (framed_generate_insights _ _ _ _ _) Hrun)).
  cbv beta iota. unfold ret.
  eexists; eexists. split; [reflexivity|]. repeat split; try exact Hdoc.
  right. eexists; eexists. repeat split; try discriminate.
  rewrite Hrun. reflexivity.
Qed.

(** The insights section logs nothing. *)
Lemma insights_section_log (ss : session_state.t) (now_txt now_md : str)
    (clicked : bool) (log : list (event float)) :
  snd (insights_section ss now_txt now_md clicked log) = log.
Proof.
  unfold Page.insights_section.
  destruct (truthy (session_state.insights ss)); [|reflexivity].
  rewrite bind_lift. destruct (result_text ss now_txt); [|reflexivity].
  rewrite bind_lift. destruct (markdown_text ss now_md); [|reflexivity].
  destruct clicked; reflexivity.
Qed.

(** With an insight in the session the insights section builds both
    reports; it never raises on a coherent session. *)
Lemma insights_section_coherent (ss : session_state.t) (now_txt now_md : str)
    (clicked : bool) (log : list (event float)) :
  coherent ss ->
  exists ss' view,
    insights_section ss now_txt now_md clicked log = (Return (ss', view), log)
    /\ coherent ss'
    /\ (truthy (session_state.insights ss) = false -> ss' = ss /\ view = None)
    /\ (truthy (session_state.insights ss) = true ->
        exists v, view = Some v
                  /\ result_text ss now_txt = Return (data (download_txt v))
                  /\ markdown_text ss now_md = Return (data (download_md v))
                  /\ ss' = if clicked then Page.reset ss else ss).
Proof.
  intros Hc. pose proof Hc as [Hinsights Hdoc]. unfold Page.insights_section.
  destruct (truthy (session_state.insights ss)) eqn:Htruthy.
  - assert (Hsome : session_state.insights ss <> None)
      by (destruct (session_state.insights ss); [discriminate | discriminate Htruthy]).
    destruct (Hinsights Hsome) as [Hd Hq].
    unfold result_text, markdown_text.
    destruct (session_state.question ss) as [q|]; [|congruence].
    destruct (session_state.document_text ss) as [d|]; [|congruence].
    rewrite !bind_lift.
    destruct clicked; eexists; eexists; (split; [reflexivity|]);
      (split; [|split; [discriminate|]]).
    + split; simpl; congruence.
    + intros _. eexists. repeat split.
    + exact Hc.
    + intros _. eexists. repeat split.
  - exists ss, None. split; [reflexivity|]. split; [exact Hc|].
    split; [intros _; split; reflexivity | discriminate].
Qed.

(** A run is its insights section on the session the first two sections
    leave, which is coherent when the run started from a coherent one. *)
Lemma script_run_decompose (ss : session_state.t) (w : Page.Widgets float) :
  coherent ss ->
  exists ss2 log,
    coherent ss2
    /\ run (script_run ss w)
       = insights_section ss2 (Page.now_txt w) (Page.now_md w)
           (Page.reset_clicked w) log.
Proof.
  intros [Hinsights Hdoc]. unfold run, Page.script_run.
  destruct (upload_section_run ss (Page.uploaded_file w) (Page.extract_clicked w))
    as [ss1 [t1 [Hrun1 [_ [Hi1 [Hq1 Hfile]]]]]].
  erewrite bind_run by exact Hrun1. cbv beta iota.
  assert (Hc1 : coherent ss1).
  { destruct (Page.uploaded_file w) as [f|].
    - destruct Hfile as [Hname Hd1]. split; [|rewrite Hname; discriminate].
      rewrite Hi1, Hq1. intros Hsome. destruct (Hinsights Hsome) as [Hd Hq].
      split; [|exact Hq].
      destruct (Page.extract_clicked w).
      + destruct Hd1 as [text [_ [_ [-> _]]]]. discriminate.
      + now rewrite Hd1.
    - destruct Hfile as [-> _]. split; assumption. }
  destruct (question_section_at ss1 (Page.openai_api_key w) (Page.question w)
              (Page.model w) (Page.temperature w) (Page.generate_clicked w) t1)
    as [ss2 [t2 [Hrun2 [Hd2 [Hf2 Hcase]]]]].
  erewrite bind_run by exact Hrun2. cbv beta iota.
  exists ss2, (t1 ++ t2). split; [|reflexivity].
  destruct Hc1 as [Hi Hd].
  destruct Hcase as [[-> _] | [d [ins [Hsome [_ [_ [_ [_ [-> _]]]]]]]]];
    [split; assumption|].
  split; simpl.
  - intros _. split; [rewrite Hsome|]; discriminate.
  - exact Hd.
Qed.

Lemma script_run_coherent (ss : session_state.t) (w : Page.Widgets float) :
  coherent ss ->
  exists ss' view log,
    run (script_run ss w) = (Return (ss', view), log) /\ coherent ss'
    /\ (truthy (session_state.insights ss') = true -> view <> None).
Proof.
  intros Hc.
  destruct (script_run_decompose w Hc) as [ss2 [log [Hc2 ->]]].
  destruct (insights_section_coherent (Page.now_txt w) (Page.now_md w)
              (Page.reset_clicked w) log Hc2)
    as [ss' [view [Hrun3 [Hc3 [Hhidden Hshown]]]]].
  exists ss', view, log. split; [exact Hrun3|]. split; [exact Hc3|].
  destruct (truthy (session_state.insights ss2)) eqn:Htruthy.
  - destruct (Hshown eq_refl) as [v [-> _]]. discriminate.
  - destruct (Hhidden eq_refl) as [-> _]. congruence.
Qed.

Lemma coherent_complete (ss : session_state.t) (insight : str) :
  coherent ss -> session_state.insights ss = Some insight ->
  exists filename question document_text,
    ss = session_with filename question insight document_text.
Proof.
  intros [Hi Hd] Hinsight.
  destruct ss as [[d|] i [f|] [q|]]; simpl in *; subst;
    try (exfalso; destruct Hi as [Hdoc Hquestion]; congruence);
    try (exfalso; apply Hd; congruence).
  exists f, q, d. reflexivity.
Qed.

Lemma reachable_is_coherent (ss : session_state.t) : reachable ss -> coherent ss.
Proof.
  induction 1 as [|ss ss' w view log _ IH Hrun].
  - split; intros H; exfalso; apply H; reflexivity.
  - destruct (script_run_coherent w IH) as [ss'' [view' [log' [Hrun' [Hc _]]]]].
    rewrite Hrun in Hrun'. injection Hrun' as -> _ _. exact Hc.
Qed.

(** X6: whatever the session and the widgets, a run of the page calls the
    remote service only when "Generate Insights" was clicked with a
    non-empty API key and a non-empty question: otherwise the log of the run
    holds no service call. *)
Theorem no_service_call_without_inputs (ss : session_state.t)
    (w : Page.Widgets float) :
  Page.generate_clicked w = false \/ Page.openai_api_key w = []
  \/ Page.question w = [] ->
  existsb (@service_call float) (snd (run (script_run ss w))) = false.
Proof.
  intros Hmissing. unfold run, Page.script_run.
  destruct (upload_section_run ss (Page.uploaded_file w) (Page.extract_clicked w))
    as [ss1 [t1 [Hrun1 [Hno1 _]]]].
  erewrite bind_run by exact Hrun1. cbv beta iota.
  destruct (question_section_at ss1 (Page.openai_api_key w) (Page.question w)
              (Page.model w) (Page.temperature w) (Page.generate_clicked w) t1)
    as [ss2 [t2 [Hrun2 [_ [_ Hcase]]]]].
  erewrite bind_run by exact Hrun2. cbv beta iota.
  rewrite insights_section_log.
  destruct Hcase as [[_ Hno2] | [d [ins [_ [Hclick [Hkey [Hq _]]]]]]].
  - now apply no_service_call_app.
  - destruct Hmissing as [H | [H | H]]; congruence.
Qed.

Lemma question_section_click (ss : session_state.t)
    (document_text key question model : str) (temp : float) :
  session_state.document_text ss = Some document_text ->
  document_text <> [] ->
  (key = [] ->
   run (question_section ss key question model temp true)
   = (Return ss,
      [st_error float
         (warning_sign ++ lit " Please enter your OpenAI API key in the sidebar.")]))
  /\ (key <> [] -> question = [] ->
      run (question_section ss key question model temp true)
      = (Return ss,
         [st_error float (warning_sign ++ lit " Please enter a question.")]))
  /\ (key <> [] -> question <> [] ->
      exists insight,
        fst (run (generate_insights_M document_text question key model temp))
        = Return insight
        /\ run (question_section ss key question model temp true)
           = (Return (set_question (set_insights ss insight) (Some question)),
              [Call_ChatCompletion_create key
                 (request_of (build_prompt document_text question) model temp)])).
Proof.
  intros Hdoc Hne.
  destruct document_text as [|c document_text]; [congruence|].
  unfold run, Page.question_section. rewrite Hdoc. cbn [truthy].
  split; [|split].
  - intros ->. reflexivity.
  - intros Hkey ->. destruct key; [congruence | reflexivity].
  - intros Hkey Hq.
    destruct key as [|k key]; [congruence|].
    destruct question as [|q question]; [congruence|].
    cbn [len List.length Nat.eqb].
    pose proof (generate_insights_run ChatCompletion_create (c :: document_text)
                  (q :: question) (k :: key) model temp) as Hrun.
    unfold run in Hrun. erewrite bind_run by exact Hrun.
    eexists. rewrite Hrun. split; reflexivity.
Qed.

(** X7: with a non-empty document text in the session, a click on "Generate
    Insights" without an API key shows the key warning, and with a key but
    no question the question warning -- in both cases nothing is sent and
    the session is unchanged; with both, the service is called once, on the
    prompt built from the session's document text, and afterwards the
    session's insight is what [generate_insights] returned (a string, or
    [None] for a null content), its question is the question asked, and its
    document text and file name are as before. *)
Theorem generate_button_validation (ss : session_state.t)
    (document_text key question model : str) (temp : float) :
  session_state.document_text ss = Some document_text ->
  document_text <> [] ->
  (key = [] ->
   run (question_section ss key question model temp true)
   = (Return ss,
      [st_error float
         (warning_sign ++ lit " Please enter your OpenAI API key in the sidebar.")]))
  /\ (key <> [] -> question = [] ->
      run (question_section ss key question model temp true)
      = (Return ss,
         [st_error float (warning_sign ++ lit " Please enter a question.")]))
  /\ (key <> [] -> question <> [] ->
      exists returned ss2,
        fst (run (generate_insights_M document_text question key model temp))
        = Return returned
        /\ run (question_section ss key question model temp true)
           = (Return ss2,
              [Call_ChatCompletion_create key
                 (request_of (build_prompt document_text question) model temp)])
        /\ session_state.insights ss2 = returned
        /\ session_state.question ss2 = Some question
        /\ session_state.document_text ss2 = Some document_text
        /\ session_state.filename ss2 = session_state.filename ss).
Proof.
  intros Hdoc Hne.
  destruct (@question_section_click ss document_text key question model temp
              Hdoc Hne) as [Hkey [Hquestion Hcall]].
  split; [exact Hkey|]. split; [exact Hquestion|].
  intros Hk Hq. destruct (Hcall Hk Hq) as [returned [Hreturned Hrun]].
  exists returned. eexists. split; [exact Hreturned|]. split; [exact Hrun|].
  repeat split. exact Hdoc.
Qed.

(** X8: a failed PDF extraction still feeds the prompt: when PyPDF2 rejects
    the bytes, the click on "Extract Text" shows the failure with
    [st.error] but stores "Error extracting PDF: ..." as the document text,
    so a later click on "Generate Insights" with a key and a question sends
    a prompt whose document is that error message. *)
Theorem failed_extraction_feeds_prompt (ss : session_state.t)
    (uploaded_file : UploadedFile) (reader : bytes -> result Pdf)
    (e : exception) (key question model : str) (temp : float) :
  import_PdfReader = Some reader ->
  pdf_criteria uploaded_file ->
  reader (read uploaded_file) = Raise e ->
  key <> [] -> question <> [] ->
  exists ss1 banner,
    run (upload_section ss (Some uploaded_file) true)
    = (Return ss1,
       [banner; entered from_pdf; Call_PdfReader float (read uploaded_file);
        st_error float (lit "Error extracting PDF: " ++ exc_str e)])
    /\ session_state.document_text ss1
       = Some (lit "Error extracting PDF: " ++ exc_str e)
    /\ snd (run (question_section ss1 key question model temp true))
       = [Call_ChatCompletion_create key
            (request_of
               (build_prompt (lit "Error extracting PDF: " ++ exc_str e) question)
               model temp)].
Proof.
  intros Himport Hpdf Hreader Hkey Hq.
  assert (Hextract : run (extract_text_M uploaded_file)
                     = (Return (lit "Error extracting PDF: " ++ exc_str e),
                        [entered from_pdf; Call_PdfReader float (read uploaded_file)])).
  { unfold run, extract_text. apply criteria_test in Hpdf. rewrite Hpdf.
    unfold extract_text_from_pdf, PDF_AVAILABLE, PdfReader.
    rewrite Himport, bind_emit. cbn [app negb].
    unfold try_except. rewrite bind_call, Hreader. reflexivity. }
  pose proof (@extract_button_run (set_filename ss (Some (name uploaded_file)))
                uploaded_file _ _ Hextract) as Hbutton.
  eexists; eexists. split; [|split].
  - unfold run, Page.upload_section. rewrite bind_emit. cbn [app].
    rewrite (framed_at (framed_extract_button _ uploaded_file) Hbutton).
    reflexivity.
  - reflexivity.
  - match goal with
    | |- snd (run (question_section ?s _ _ _ _ _)) = _ =>
      destruct (@question_section_click s
                  (lit "Error extracting PDF: " ++ exc_str e) key question model
                  temp eq_refl ltac:(discriminate))
        as [_ [_ Hcall]]
    end.
    destruct (Hcall Hkey Hq) as [insight [_ ->]]. reflexivity.
Qed.

Lemma message_for_truthy (e : exception) : truthy (Some (message_for e)) = true.
Proof. unfold message_for. destruct (kind_of e); reflexivity. Qed.

(** X9: a failure of the remote service is stored like an answer: after a
    click with key and question on which the service raises, the session's
    insight is the failure message of the exception's kind; being non-empty
    it is rendered in the insight box and written into both downloads. *)
Theorem failure_message_is_exported (ss : session_state.t)
    (document_text key question model : str) (temp : float) (e : exception)
    (now_txt now_md : str) :
  session_state.document_text ss = Some document_text ->
  document_text <> [] -> key <> [] -> question <> [] ->
  ChatCompletion_create key
    (request_of (build_prompt document_text question) model temp) = Raise e ->
  exists ss2 view,
    run (question_section ss key question model temp true)
    = (Return ss2,
       [Call_ChatCompletion_create key
          (request_of (build_prompt document_text question) model temp)])
    /\ session_state.insights ss2 = Some (message_for e)
    /\ run (insights_section ss2 now_txt now_md false) = (Return (ss2, Some view), [])
    /\ occurs (message_for e) (insight_box view)
    /\ occurs (message_for e) (data (download_txt view))
    /\ occurs (message_for e) (data (download_md view)).
Proof.
  intros Hdoc Hne Hkey Hq Hraise.
  destruct (@question_section_click ss document_text key question model temp
              Hdoc Hne) as [_ [_ Hcall]].
  destruct (Hcall Hkey Hq) as [insight [Hinsight Hrun]].
  rewrite generate_insights_run, Hraise in Hinsight. cbn [fst] in Hinsight.
  injection Hinsight as <-.
  eexists; eexists. split; [exact Hrun|]. split; [reflexivity|].
  unfold run, Page.insights_section.
  cbn [set_question set_insights session_state.insights
       session_state.document_text session_state.question
       session_state.filename].
  rewrite message_for_truthy. unfold result_text, markdown_text.
  cbn [set_question set_insights session_state.insights
       session_state.document_text session_state.question
       session_state.filename].
  rewrite Hdoc, !bind_lift.
  split; [reflexivity|].
  cbn [insight_box download_txt download_md data fmt].
  repeat split; find_field.
Qed.

(** X10: from the initial session, whatever the user uploads, types and
    clicks, the session stays coherent: an insight in the session comes with
    a file name, a question and a document text, so the session is a
    complete one. *)
Theorem reachable_coherent (ss : session_state.t) :
  reachable ss ->
  coherent ss
  /\ forall insight, session_state.insights ss = Some insight ->
       exists filename question document_text,
         ss = session_with filename question insight document_text.
Proof.
  intros Hreach. pose proof (reachable_is_coherent Hreach) as Hc.
  split; [exact Hc|].
  intros insight Hinsight. exact (coherent_complete Hc Hinsight).
Qed.

(** X11: from the initial session no run of the page raises: text is always
    extracted to a string, [generate_insights] always returns, and whenever
    the insights section is rendered both reports can be built (the question
    and the document text they read are set). *)
Theorem script_never_raises (ss : session_state.t) (w : Page.Widgets float) :
  reachable ss ->
  exists ss' view log,
    run (script_run ss w) = (Return (ss', view), log)
    /\ reachable ss'
    /\ (truthy (session_state.insights ss') = true -> view <> None).
Proof.
  intros Hreach.
  destruct (script_run_coherent w (reachable_is_coherent Hreach))
    as [ss' [view [log [Hrun [_ Hview]]]]].
  exists ss', view, log. split; [exact Hrun|]. split; [|exact Hview].
  eapply Page.reachable_run; eassumption.
Qed.

(** X15: from the initial session, the downloads a run offers are the two
    reports of a complete session -- a real file name, question, insight and
    document text, never a missing field printed as "None" -- and they are
    named after that file: its name followed by [_insights.txt] and
    [_insights.md]. *)
Theorem downloads_of_complete_session (ss ss' : session_state.t)
    (w : Page.Widgets float) (v : InsightsView) (log : list (event float)) :
  reachable ss ->
  run (script_run ss w) = (Return (ss', Some v), log) ->
  exists filename question insight document_text,
    result_text (session_with filename question insight document_text)
      (Page.now_txt w) = Return (data (download_txt v))
    /\ markdown_text (session_with filename question insight document_text)
         (Page.now_md w) = Return (data (download_md v))
    /\ file_name (download_txt v) = filename ++ lit "_insights.txt"
    /\ file_name (download_md v) = filename ++ lit "_insights.md"
    /\ mime (download_txt v) = lit "text/plain"
    /\ mime (download_md v) = lit "text/markdown"
    /\ insight <> [].
Proof.
  intros Hreach Hrun.
  destruct (script_run_decompose w (reachable_is_coherent Hreach))
    as [ss2 [log2 [Hc2 Hsplit]]].
  rewrite Hsplit in Hrun. unfold Page.insights_section in Hrun.
  destruct (session_state.insights ss2) as [[|c insight]|] eqn:Hinsight;
    cbn [truthy] in Hrun; try discriminate Hrun.
  destruct (coherent_complete Hc2 Hinsight) as [f [q [d ->]]].
  exists f, q, (c :: insight), d.
  unfold result_text, markdown_text in *.
  cbn [session_with session_state.question session_state.document_text
       session_state.filename session_state.insights fmt] in *.
  rewrite !bind_lift in Hrun.
  destruct (Page.reset_clicked w); injection Hrun as _ <- _;
    repeat split; discriminate.
Qed.

(** X12: "Analyze Another Document" clears the document text, the insight
    and the file name; on the next run without a new extraction the page
    shows no insight, offers no download and calls no service, whatever the
    widgets hold. *)
Theorem reset_then_idle (ss : session_state.t) (w : Page.Widgets float) :
  Page.extract_clicked w = false ->
  exists log,
    run (script_run (Page.reset ss) w)
    = (Return (match Page.uploaded_file w with
               | Some f => set_filename (Page.reset ss) (Some (name f))
               | None => Page.reset ss
               end, None), log)
    /\ existsb (@service_call float) log = false.
Proof.
  intros Hclick. unfold run, Page.script_run, Page.upload_section.
  rewrite Hclick.
  destruct (Page.uploaded_file w) as [f|]; eexists; split; reflexivity.
Qed.


(** X13: an extraction that yields no text at all -- a PDF whose pages hold
    only images, a file of blanks -- is reported with an empty [st.error];
    the empty document text hides the question section, so a later click
    changes nothing and sends nothing. *)
Theorem blank_extraction_hides_question (ss : session_state.t)
    (uploaded_file : UploadedFile) (trace : list (event float))
    (key question model : str) (temp : float) (clicked : bool) :
  run (extract_text_M uploaded_file) = (Return [], trace) ->
  run (extract_button_M ss uploaded_file)
  = (Return (session_state.set_document_text ss (Some [])),
     trace ++ [st_error float []])
  /\ run (question_section (session_state.set_document_text ss (Some []))
            key question model temp clicked)
     = (Return (session_state.set_document_text ss (Some [])), []).
Proof.
  intros Hrun. split; [|reflexivity].
  erewrite extract_button_run by exact Hrun. reflexivity.
Qed.

End PageFacts.

(** ** The prompt's size *)


(** ** Concrete runs of the page *)

Lemma extract_text_from_pdf_failure_witness :
  run (extract_text_from_pdf (float := unit) (Some failing_reader) [x25; x50])
  = (Return (lit "Error extracting PDF: EOF marker not found"),
     [Enter unit from_pdf; Call_PdfReader unit [x25; x50]]).
Proof.
  destruct (@extract_text_from_pdf_failure unit (Some failing_reader)
              failing_reader [x25; x50] eof_error eq_refl (or_introl eq_refl))
    as [Hrun _].
  exact Hrun.
Defined.

Lemma extract_text_from_docx_outcome_witness :
  run (extract_text_from_docx (float := unit) (Some letter_reader) [x50; x4b])
  = (Return (lit "Dear reader," ++ NL ++ lit "goodbye."),
     [Enter unit from_docx; Call_DocxDocument unit [x50; x4b]]).
Proof.
  destruct (@extract_text_from_docx_outcome unit (Some letter_reader)
              letter_reader [x50; x4b] eq_refl)
    as [Hrun _].
  exact Hrun.
Defined.

Lemma text_starting_with_Error_is_reported_as_error_witness :
  exists ss',
    run (extract_button (float := unit) None None session_state.initial
           error_log_upload)
    = (Return ss', [Enter unit from_txt; st_error unit (lit "Error: disk full")])
    /\ session_state.document_text ss' = Some (lit "Error: disk full").
Proof.
  destruct (@text_starting_with_Error_is_reported_as_error unit None None
              session_state.initial error_log_upload
              (lit "Error: disk full" ++ NL))
    as [ss' [Hrun [Hdoc _]]].
  - intros [H | H]; discriminate H.
  - intros [H | H]; discriminate H.
  - left. reflexivity.
  - reflexivity.
  - left. reflexivity.
  - exists ss'. split; [exact Hrun | exact Hdoc].
Defined.

Lemma no_service_call_without_inputs_witness :
  Page.openai_api_key keyless_widgets = []
  /\ existsb (@service_call unit)
       (snd (run (Page.script_run None None answering sample_kilobytes
                    extracted_session keyless_widgets))) = false.
Proof.
  split; [reflexivity|].
  apply (@no_service_call_without_inputs unit None None answering
           sample_kilobytes extracted_session keyless_widgets).
  right. left. reflexivity.
Defined.

Lemma generate_button_validation_witness :
  exists ss2,
    run (Page.question_section answering extracted_session (lit "sk-test")
           sample_question (lit "gpt-4") tt true)
    = (Return ss2,
       [Call_ChatCompletion_create (lit "sk-test")
          (request_of (build_prompt (lit "Some text.") sample_question)
             (lit "gpt-4") tt)])
    /\ session_state.insights ss2 = Some (lit "The conclusion is X.")
    /\ session_state.question ss2 = Some sample_question
    /\ session_state.document_text ss2 = Some (lit "Some text.").
Proof.
  destruct (@generate_button_validation unit answering extracted_session
              (lit "Some text.") (lit "sk-test") sample_question (lit "gpt-4") tt
              eq_refl ltac:(discriminate))
    as [_ [_ Hcall]].
  destruct (Hcall ltac:(discriminate) ltac:(discriminate))
    as [returned [ss2 [Hreturned [Hrun [Hinsight [Hquestion [Hdoc _]]]]]]].
  assert (Hanswer : fst (run (generate_insights answering (lit "Some text.")
                                sample_question (lit "sk-test") (lit "gpt-4") tt))
                    = Return (Some (lit "The conclusion is X."))) by reflexivity.
  rewrite Hanswer in Hreturned. injection Hreturned as <-.
  exists ss2. repeat split; assumption.
Defined.

Lemma failed_extraction_feeds_prompt_witness :
  exists ss1,
    session_state.document_text ss1
    = Some (lit "Error extracting PDF: EOF marker not found")
    /\ snd (run (Page.question_section answering ss1 (lit "sk-test")
                   sample_question (lit "gpt-4") tt true))
       = [Call_ChatCompletion_create (lit "sk-test")
            (request_of
               (build_prompt (lit "Error extracting PDF: EOF marker not found")
                  sample_question)
               (lit "gpt-4") tt)].
Proof.
  destruct (@failed_extraction_feeds_prompt unit (Some failing_reader) None
              answering sample_kilobytes session_state.initial
              mislabelled_upload failing_reader eof_error (lit "sk-test")
              sample_question (lit "gpt-4") tt eq_refl
              (or_intror eq_refl) eq_refl ltac:(discriminate) ltac:(discriminate))
    as [ss1 [banner [_ [Hdoc Hcall]]]].
  exists ss1. split; [exact Hdoc | exact Hcall].
Defined.

Lemma failure_message_is_exported_witness :
  exists ss2 view,
    session_state.insights ss2 = Some invalid_api_key_message
    /\ occurs invalid_api_key_message (insight_box view)
    /\ occurs invalid_api_key_message (data (download_txt view))
    /\ occurs invalid_api_key_message (data (download_md view)).
Proof.
  destruct (@failure_message_is_exported unit rejecting extracted_session
              (lit "Some text.") (lit "sk-wrong") sample_question (lit "gpt-4")
              tt rejected_key (lit "2024-05-01 10:00:00")
              (lit "2024-05-01 10:00:00") eq_refl ltac:(discriminate)
              ltac:(discriminate) ltac:(discriminate) eq_refl)
    as [ss2 [view [_ [Hinsight [_ [Hbox [Htxt Hmd]]]]]]].
  exists ss2, view. repeat split; assumption.
Defined.

Lemma asked_session_reachable :
  @Page.reachable unit None None answering sample_kilobytes asked_session.
Proof.
  eapply Page.reachable_run with (w := asking_widgets).
  - apply Page.reachable_initial.
  - reflexivity.
Qed.

Lemma reachable_coherent_witness :
  coherent asked_session
  /\ forall insight, session_state.insights asked_session = Some insight ->
       exists filename question document_text,
         asked_session = session_with filename question insight document_text.
Proof. exact (reachable_coherent asked_session_reachable). Defined.

Lemma script_never_raises_witness :
  exists ss' view log,
    run (Page.script_run None None answering sample_kilobytes asked_session
           resetting_widgets)
    = (Return (ss', view), log)
    /\ @Page.reachable unit None None answering sample_kilobytes ss'
    /\ (truthy (session_state.insights ss') = true -> view <> None).
Proof. exact (script_never_raises resetting_widgets asked_session_reachable). Defined.

Lemma downloads_of_complete_session_witness :
  exists ss' v log filename question insight document_text,
    run (Page.script_run None None answering sample_kilobytes
           session_state.initial asking_widgets)
    = (Return (ss', Some v), log)
    /\ result_text (session_with filename question insight document_text)
         (lit "2024-05-01 10:00:00") = Return (data (download_txt v))
    /\ file_name (download_txt v) = filename ++ lit "_insights.txt".
Proof.
  eexists; eexists; eexists.
  assert (Hrun : run (Page.script_run None None answering sample_kilobytes
                        session_state.initial asking_widgets)
                 = (Return (asked_session,
                            Some {| insight_box :=
                                      lit "<div class=" ++ [34%N] ++ lit "insight-box"
                                      ++ [34%N] ++ lit ">The conclusion is X.</div>";
                                    download_txt :=
                                      {| data := _; file_name := _; mime := _ |};
                                    download_md :=
                                      {| data := _; file_name := _; mime := _ |} |}),
                     _)) by reflexivity.
  destruct (@downloads_of_complete_session unit None None answering
              sample_kilobytes _ _ asking_widgets _ _
              (Page.reachable_initial None None answering sample_kilobytes) Hrun)
    as [f [q [i [d [Htxt [_ [Hname _]]]]]]].
  exists f, q, i, d. split; [exact Hrun|]. split; [exact Htxt | exact Hname].
Defined.

Lemma reset_then_idle_witness :
  exists log,
    run (Page.script_run None None answering sample_kilobytes
           (Page.reset asked_session) keyless_widgets)
    = (Return (set_filename (Page.reset asked_session) (Some (lit "notes.txt")),
               None), log)
    /\ existsb (@service_call unit) log = false.
Proof.
  exact (@reset_then_idle unit None None answering sample_kilobytes
           asked_session keyless_widgets eq_refl).
Defined.

Lemma blank_extraction_hides_question_witness :
  run (extract_button (float := unit) None None session_state.initial blank_upload)
  = (Return (session_state.set_document_text session_state.initial (Some [])),
     [Enter unit from_txt; st_error unit []])
  /\ run (Page.question_section answering
            (session_state.set_document_text session_state.initial (Some []))
            (lit "sk-test") sample_question (lit "gpt-4") tt true)
     = (Return (session_state.set_document_text session_state.initial (Some [])),
        []).
Proof.
  exact (@blank_extraction_hides_question unit None None answering
           session_state.initial blank_upload [Enter unit from_txt]
           (lit "sk-test") sample_question (lit "gpt-4") tt true eq_refl).
Defined.
